(** * PayPal payment provider: the payment-session adapter and its amount formatter

    A shallow embedding of [src/core/paypal-base.ts] (class [PayPalBase]) and
    [src/core/utils/utils.ts] ([convertAmount]).

    The adapter is asynchronous JavaScript whose only effects are calls on the
    injected PayPal client and thrown exceptions.  Every method is embedded as
    a computation in a state-and-exception monad [Async]: the state is the
    remote system together with the log of the client calls issued so far, and
    an abrupt completion stands for a rejected promise (an exception escaping to
    the caller). *)

From Stdlib Require Import ZArith Ascii String List Bool Lia.
From stdpp Require Import base option list strings gmap pretty.

Local Open Scope string_scope.
Local Open Scope list_scope.

(** ** JavaScript values and error objects *)

(** Values found under the keys of a [Record<string, unknown>]; an object or
    array is kept as a reference. *)
Inductive JsVal : Type :=
| VUndefined
| VNull
| VBool (b : bool)
| VNum (n : Z)
| VNaN
| VStr (s : string)
| VObj (ref : nat).

(** ToBoolean, as used by [if (v)] and [!!v]. *)
Definition truthy (v : JsVal) : bool :=
  match v with
  | VUndefined | VNull | VNaN => false
  | VBool b => b
  | VNum n => negb (n =? 0)%Z
  | VStr s => negb (String.eqb s "")
  | VObj _ => true
  end.

(** A property of an error object: absent, or present with a string or with
    [undefined]. *)
Inductive Field : Type :=
| Absent
| Present (v : option string).

(** ["k" in obj] *)
Definition has (f : Field) : bool :=
  match f with Absent => false | Present _ => true end.

(** [obj.k]; [None] is [undefined]. *)
Definition get (f : Field) : option string :=
  match f with Absent => None | Present v => v end.

(** The error objects that reach a [catch]: the four properties [buildError]
    looks at. *)
Record JsError : Type := mkJsError {
  err_error : Field;
  err_code : Field;
  err_detail : Field;
  err_message : Field
}.

(** [new Error(message)]; a [TypeError] raised by the runtime has the same
    shape. *)
Definition Error (message : string) : JsError :=
  {| err_error := Absent; err_code := Absent; err_detail := Absent;
     err_message := Present (Some message) |}.

(** The runtime's complaint about [undefined.prop] (wording of V8). *)
Definition TypeError_undefined (prop : string) : JsError :=
  Error ("Cannot read properties of undefined (reading '" +:+ prop +:+ "')").

(** The runtime's complaint about [const { prop } = source] when [source]
    is [undefined] (wording of V8). *)
Definition TypeError_destructure (prop source : string) : JsError :=
  Error ("Cannot destructure property '" +:+ prop +:+ "' of '" +:+ source
         +:+ "' as it is undefined.").

(** [new MedusaError(type, message)] from @medusajs/utils: the constructor
    assigns [this.code = code], so the property exists and is [undefined]
    when no code is passed. *)
Definition MedusaError (type message : string) : JsError :=
  {| err_error := Absent; err_code := Present None; err_detail := Absent;
     err_message := Present (Some message) |}.

Definition INVALID_DATA : string := "invalid_data".

(** [PaymentProviderError], the normalized error every operation returns. *)
Record PaymentProviderError : Type := mkPaymentProviderError {
  error : string;
  code : option string;
  detail : option string
}.

(** A provider error seen again as a caught error object. *)
Definition as_thrown (e : PaymentProviderError) : JsError :=
  {| err_error := Present (Some (error e)); err_code := Present (code e);
     err_detail := Present (detail e); err_message := Absent |}.

(** [isPaymentProviderError] of @medusajs/utils, on an object. *)
Definition isPaymentProviderError (e : JsError) : bool :=
  has (err_error e) && has (err_code e) && has (err_detail e).

(** Template-literal conversion [`${v}`]. *)
Definition template (v : option string) : string :=
  match v with Some s => s | None => "undefined" end.

(** [v ?? d] *)
Definition nullish (v : option string) (d : string) : string :=
  match v with Some s => s | None => d end.

(** ** Orders, purchase units and session data *)

Record Money : Type := mkMoney {
  value : string;
  currency_code : string
}.

(** An entry of [captures] or [authorizations]. *)
Record PaymentRef : Type := mkPaymentRef { pay_id : string }.

(** [captures] is read through [?.], so it may be missing. *)
Record Payments : Type := mkPayments {
  authorizations : list PaymentRef;
  captures : option (list PaymentRef)
}.

Record PurchaseUnit : Type := mkPurchaseUnit {
  custom_id : option string;
  pu_amount : Money;
  payments : Payments
}.

(** Modelled from the spec: the [PaypalOrder] type of [src/types], which is
    not part of the sources at hand; section 3 of the specification gives a
    remote order an [id], a [status], an optional [invoice_id] and an ordered
    list of purchase units. *)
Record PaypalOrder : Type := mkPaypalOrder {
  order_id : string;
  status : string;
  invoice_id : option string;
  purchase_units : list PurchaseUnit
}.

(** The opaque session data the host hands back is the order snapshot. *)
Abbreviation SessionData := PaypalOrder (only parsing).

(** Modelled from the spec: the [PaypalOrderStatus] constants of [src/types]
    (section 3: CREATED, SAVED, APPROVED, PAYER_ACTION_REQUIRED, VOIDED,
    COMPLETED). *)
Module PaypalOrderStatus.
Definition CREATED : string := "CREATED".
Definition SAVED : string := "SAVED".
Definition APPROVED : string := "APPROVED".
Definition PAYER_ACTION_REQUIRED : string := "PAYER_ACTION_REQUIRED".
Definition VOIDED : string := "VOIDED".
Definition COMPLETED : string := "COMPLETED".
End PaypalOrderStatus.

(** [PaymentSessionStatus] of @medusajs/utils. *)
Inductive PaymentSessionStatus : Type :=
| AUTHORIZED
| CAPTURED
| PENDING
| REQUIRES_MORE
| ERROR
| CANCELED.

(** [PaymentActions] of @medusajs/utils. *)
Inductive PaymentActions : Type :=
| ACTION_AUTHORIZED
| ACTION_SUCCESSFUL
| ACTION_FAILED
| ACTION_NOT_SUPPORTED.

(** A value of the union [PaymentProviderError | A]. *)
Inductive ErrorOr (A : Type) : Type :=
| IsError (e : PaymentProviderError)
| IsData (a : A).
Arguments IsError {A} e.
Arguments IsData {A} a.

(** ** The amount formatter ([utils.ts]) *)

Record PaypalCurrencyOptions : Type := mkCurrencyOptions {
  decimal : option bool;
  places : option nat
}.

Definition no_options : PaypalCurrencyOptions :=
  {| decimal := None; places := None |}.
Definition zero_decimal : PaypalCurrencyOptions :=
  {| decimal := Some false; places := None |}.

Definition PAYPAL_CURRENCY_CODES : gmap string PaypalCurrencyOptions :=
  list_to_map
    [ ("AUD", no_options); ("BRL", no_options); ("CAD", no_options);
      ("CNY", no_options); ("CZK", no_options); ("DKK", no_options);
      ("EUR", no_options); ("HKD", no_options); ("HUF", zero_decimal);
      ("ILS", no_options); ("JPY", zero_decimal); ("MYR", no_options);
      ("MXN", no_options); ("TWD", zero_decimal); ("NZD", no_options);
      ("NOK", no_options); ("PHP", no_options); ("PLN", no_options);
      ("GBP", no_options); ("RUB", no_options); ("SGD", no_options);
      ("SEK", no_options); ("CHF", no_options); ("THB", no_options);
      ("USD", no_options) ].

(** [String.prototype.toUpperCase] on ASCII text. *)
Definition upper_ascii (c : ascii) : ascii :=
  let n := nat_of_ascii c in
  if (97 <=? n)%nat && (n <=? 122)%nat then ascii_of_nat (n - 32) else c.

Fixpoint toUpperCase (s : string) : string :=
  match s with
  | EmptyString => EmptyString
  | String c s' => String (upper_ascii c) (toUpperCase s')
  end.

Section Formatter.
(** [BigNumberInput] and the rendering
    [new BigNumber(amount, { precision }).numeric.toFixed(precision)] belong
    to @medusajs/utils; the constructor rejects values that are not
    numeric, hence the error alternative. *)
Variable BigNumberInput : Type.
Variable toFixed : BigNumberInput -> nat -> JsError + string.

(** Every own or inherited key of the table object that consists of
    upper-case text is an entry of the table, so [currency_ in
    PAYPAL_CURRENCY_CODES] is a table lookup. *)
Definition convertAmount (amount : BigNumberInput) (currency : string)
  : JsError + Money :=
  let currency_ := toUpperCase currency in
  match PAYPAL_CURRENCY_CODES !! currency_ with
  | None =>
      inl (Error ("Currency " +:+ currency +:+ " is not supported by Paypal"))
  | Some currencyOptions =>
      let precision :=
        match decimal currencyOptions with
        | Some false => 0
        | _ => match places currencyOptions with Some p => p | None => 2 end
        end in
      match toFixed amount precision with
      | inl e => inl e
      | inr value =>
          if (32 <? String.length value)%nat
          then inl (Error ("Amount string exceeds 32 character limit: "
                           +:+ value))
          else inr {| value := value; currency_code := currency_ |}
      end
  end.
End Formatter.

(** ** The PayPal client and the effects of the adapter *)

Inductive Intent : Type := CAPTURE | AUTHORIZE.

Record CreateOrderUnit : Type := mkCreateOrderUnit {
  cu_custom_id : option string;
  cu_amount : Money
}.

Record CreateOrder : Type := mkCreateOrder {
  intent : Intent;
  co_purchase_units : list CreateOrderUnit
}.

(** One JSON-patch operation; its value is [{ amount }]. *)
Record PatchOp : Type := mkPatchOp {
  op : string;
  path : string;
  patch_amount : Money
}.

Record RefundBody : Type := mkRefundBody { refund_amount : Money }.

(** The requests the adapter can put to the client, as they are logged. *)
Inductive Call : Type :=
| createOrder_call (body : CreateOrder)
| getOrder_call (id : string)
| patchOrder_call (id : string) (ops : list PatchOp)
| captureAuthorizedPayment_call (id : string)
| cancelAuthorizedPayment_call (id : string)
| refundPayment_call (id : string) (body : option RefundBody).

(** Calls that change the remote order; [getOrder] only reads. *)
Definition is_mutation (c : Call) : bool :=
  match c with getOrder_call _ => false | _ => true end.

Definition is_refund (c : Call) : bool :=
  match c with refundPayment_call _ _ => true | _ => false end.

Definition is_void (c : Call) : bool :=
  match c with cancelAuthorizedPayment_call _ => true | _ => false end.

(** The capability set of [PaypalSdk] ([src/core/paypal-sdk], injected): each
    call answers or fails, and moves the remote system on. *)
Module PaypalSdk.
Record client (World : Type) : Type := mkClient {
  createOrder : CreateOrder -> World -> (JsError + PaypalOrder) * World;
  getOrder : string -> World -> (JsError + PaypalOrder) * World;
  patchOrder : string -> list PatchOp -> World -> (JsError + unit) * World;
  captureAuthorizedPayment : string -> World -> (JsError + unit) * World;
  cancelAuthorizedPayment : string -> World -> (JsError + unit) * World;
  refundPayment :
    string -> option RefundBody -> World -> (JsError + unit) * World
}.
Arguments createOrder {World} _ _ _.
Arguments getOrder {World} _ _ _.
Arguments patchOrder {World} _ _ _ _.
Arguments captureAuthorizedPayment {World} _ _ _.
Arguments cancelAuthorizedPayment {World} _ _ _.
Arguments refundPayment {World} _ _ _ _.
End PaypalSdk.

(** How a statement sequence ends: with a value, or with a thrown error. *)
Inductive Completion (A : Type) : Type :=
| Returns (a : A)
| Throws (e : JsError).
Arguments Returns {A} a.
Arguments Throws {A} e.

Section Effects.
Context {World : Type}.

Record Env : Type := mkEnv {
  world : World;
  issued : list Call
}.

Definition Async (A : Type) : Type := Env -> Completion A * Env.

Definition ret {A} (a : A) : Async A := fun env => (Returns a, env).

Definition throw {A} (e : JsError) : Async A := fun env => (Throws e, env).

Definition bind {A B} (m : Async A) (k : A -> Async B) : Async B :=
  fun env =>
    match m env with
    | (Returns a, env') => k a env'
    | (Throws e, env') => (Throws e, env')
    end.

(** [try { body } catch (e) { handler }], and [promise.catch(handler)]. *)
Definition try_catch {A} (body : Async A) (handler : JsError -> Async A)
  : Async A :=
  fun env =>
    match body env with
    | (Returns a, env') => (Returns a, env')
    | (Throws e, env') => handler e env'
    end.

(** A synchronous helper that may throw. *)
Definition lift {A} (r : JsError + A) : Async A :=
  match r with inl e => throw e | inr a => ret a end.

(** [await client.call(...)]: the call is logged, the remote system moves,
    and a failure of the call is thrown at the [await]. *)
Definition await {A} (c : Call) (run : World -> (JsError + A) * World)
  : Async A :=
  fun env =>
    let (r, w') := run (world env) in
    let env' := {| world := w'; issued := issued env ++ [c] |} in
    match r with
    | inl e => (Throws e, env')
    | inr a => (Returns a, env')
    end.

(** [o.prop] where [o] may be [undefined]. *)
Definition read {A B} (o : option A) (prop : string) (f : A -> B)
  : Async B :=
  match o with
  | Some a => ret (f a)
  | None => throw (TypeError_undefined prop)
  end.

(** The environment once the calls [cs] have been answered, leaving the
    remote system in [w]. *)
Definition after (env : Env) (cs : list Call) (w : World) : Env :=
  {| world := w; issued := issued env ++ cs |}.

(** A computation that never throws. *)
Definition returns {A} (m : Env -> Completion A * Env) : Prop :=
  forall env, exists a env', m env = (Returns a, env').
End Effects.

Arguments Env World : clear implicits.
Arguments Async World A : clear implicits.

Notation "x <- m ;; k" := (bind m (fun x => k))
  (at level 20, m at level 99, k at level 200, only parsing).
Notation "m ;;; k" := (bind m (fun _ => k))
  (at level 100, k at level 200, right associativity, only parsing).

(** ** Inputs and outputs of the provider contract (@medusajs/types) *)

Record PaypalOptions : Type := mkPaypalOptions {
  clientId : option string;
  clientSecret : option string;
  capture : option bool
}.

Record PaymentProviderContext : Type := mkContext {
  session_id : option string
}.

(** [context] is [None] when the caller left it out: destructuring it then
    throws. *)
Record CreatePaymentProviderSession (BigNumberInput : Type) : Type :=
  mkCreateSession {
    create_context : option PaymentProviderContext;
    create_currency_code : string;
    create_amount : BigNumberInput
  }.
Arguments create_context {BigNumberInput} _.
Arguments create_currency_code {BigNumberInput} _.
Arguments create_amount {BigNumberInput} _.

Record UpdatePaymentProviderSession (BigNumberInput : Type) : Type :=
  mkUpdateSession {
    update_context : option PaymentProviderContext;
    update_data : SessionData;
    update_currency_code : string;
    update_amount : BigNumberInput
  }.
Arguments update_context {BigNumberInput} _.
Arguments update_data {BigNumberInput} _.
Arguments update_currency_code {BigNumberInput} _.
Arguments update_amount {BigNumberInput} _.

(** An update input passed where a create input is expected. *)
Definition as_create {B} (input : UpdatePaymentProviderSession B)
  : CreatePaymentProviderSession B :=
  {| create_context := update_context input;
     create_currency_code := update_currency_code input;
     create_amount := update_amount input |}.

Record PaymentProviderSessionResponse : Type := mkSessionResponse {
  response_data : SessionData
}.

Record AuthorizeResult : Type := mkAuthorizeResult {
  auth_data : option PaypalOrder;
  auth_status : PaymentSessionStatus
}.

Record WebhookActionData (Number : Type) : Type := mkWebhookActionData {
  wh_amount : Number;
  wh_session_id : string
}.

Record WebhookActionResult (Number : Type) : Type := mkWebhookActionResult {
  action : PaymentActions;
  action_data : option (WebhookActionData Number)
}.

Record Link : Type := mkLink {
  rel : option string;
  href : option string
}.

Record Authorization : Type := mkAuthorization { links : list Link }.

(** [String.prototype.split] on a one-character separator: never empty. *)
Fixpoint split (sep : ascii) (s : string) : list string :=
  match s with
  | EmptyString => [EmptyString]
  | String c s' =>
      if Ascii.eqb c sep then EmptyString :: split sep s'
      else match split sep s' with
           | seg :: rest => String c seg :: rest
           | [] => [String c EmptyString]
           end
  end.

(** ** The webhook verification request *)

(** The two spellings of the webhook id among the options. *)
Record WebhookOptions : Type := mkWebhookOptions {
  auth_webhook_id : option string;
  authWebhookId : option string
}.

(** [a || b] on values that are strings or [undefined]. *)
Definition or_else (a b : option string) : option string :=
  match a with
  | Some s => if String.eqb s "" then b else a
  | None => b
  end.

Definition js_of_string (v : option string) : JsVal :=
  match v with Some s => VStr s | None => VUndefined end.

(** The object literal [{ webhook_id: ..., ...data }] that [verifyWebhook]
    hands to the client: the properties of [data] are copied over the
    configured id. *)
Definition verifyWebhook_request (options : WebhookOptions)
    (data : gmap string JsVal) : gmap string JsVal :=
  data ∪ {[ "webhook_id" :=
              js_of_string (or_else (auth_webhook_id options)
                                    (authWebhookId options)) ]}.

(** ** A scripted client, to run the adapter on concrete inputs *)

Module Mock.
(** What the remote side will answer to the next call. *)
Inductive Reply : Type :=
| Order (o : PaypalOrder)
| Done
| Fail (e : JsError).

(** The remote system is the list of answers still to be given. *)
Definition World : Type := list Reply.

Definition hang_up : JsError := Error "socket hang up".

Definition next_order (w : World) : (JsError + PaypalOrder) * World :=
  match w with
  | Order o :: w' => (inr o, w')
  | Done :: w' => (inl (Error "unexpected empty body"), w')
  | Fail e :: w' => (inl e, w')
  | [] => (inl hang_up, [])
  end.

Definition next_done (w : World) : (JsError + unit) * World :=
  match w with
  | Order _ :: w' | Done :: w' => (inr tt, w')
  | Fail e :: w' => (inl e, w')
  | [] => (inl hang_up, [])
  end.

Definition sdk : PaypalSdk.client World :=
  {| PaypalSdk.createOrder := fun _ => next_order;
     PaypalSdk.getOrder := fun _ => next_order;
     PaypalSdk.patchOrder := fun _ _ => next_done;
     PaypalSdk.captureAuthorizedPayment := fun _ => next_done;
     PaypalSdk.cancelAuthorizedPayment := fun _ => next_done;
     PaypalSdk.refundPayment := fun _ _ => next_done |}.

(** Whole amounts rendered with [precision] zero decimals. *)
Definition toFixed (amount : Z) (precision : nat) : JsError + string :=
  inr (match precision with
       | O => pretty amount
       | S _ => pretty amount +:+ "." +:+ String.concat "" (replicate precision "0")
       end).

Definition options : PaypalOptions :=
  {| clientId := Some "id"; clientSecret := Some "secret"; capture := None |}.

Definition start (w : World) : Env World := {| world := w; issued := [] |}.

(** [os.EOL] on POSIX. *)
Definition EOL : string := String (ascii_of_nat 10) EmptyString.

Definition unit_of (auths : list string) (caps : list string) : PurchaseUnit :=
  {| custom_id := Some "s1";
     pu_amount := {| value := "10.00"; currency_code := "USD" |};
     payments := {| authorizations := map mkPaymentRef auths;
                    captures := Some (map mkPaymentRef caps) |} |}.

Definition order (st : string) (inv : option string) (pus : list PurchaseUnit)
  : PaypalOrder :=
  {| order_id := "O-1"; status := st; invoice_id := inv;
     purchase_units := pus |}.

(** An order authorized but not captured. *)
Definition authorized_order : PaypalOrder :=
  order "APPROVED" None [unit_of ["A-1"] []].

(** An order whose only purchase unit has been captured. *)
Definition captured_order : PaypalOrder :=
  order "COMPLETED" None [unit_of ["A-1"] ["C-1"]].

(** An order with two purchase units, the capture being in the second. *)
Definition split_order : PaypalOrder :=
  order "COMPLETED" None [unit_of ["A-1"] []; unit_of [] ["C-2"]].

(** An order whose purchase unit has neither authorization nor capture. *)
Definition bare_order : PaypalOrder :=
  order "CREATED" None [unit_of [] []].

(** An order without purchase units. *)
Definition empty_order : PaypalOrder := order "CREATED" None [].

(** A captured order in a currency PayPal does not list. *)
Definition foreign_order : PaypalOrder :=
  order "COMPLETED" None
    [ {| custom_id := Some "s1";
         pu_amount := {| value := "10.00"; currency_code := "XYZ" |};
         payments := {| authorizations := [];
                        captures := Some [mkPaymentRef "C-1"] |} |} ].

Definition voided_order : PaypalOrder :=
  order "VOIDED" None [unit_of ["A-1"] []].

Definition update_input (context : option PaymentProviderContext)
  : UpdatePaymentProviderSession Z :=
  {| update_context := context;
     update_data := authorized_order;
     update_currency_code := "usd";
     update_amount := 25%Z |}.

Definition usd_25 : Money := {| value := "25.00"; currency_code := "USD" |}.

Definition context : PaymentProviderContext := {| session_id := Some "s1" |}.

Definition create_input : CreatePaymentProviderSession Z :=
  {| create_context := Some context;
     create_currency_code := "usd";
     create_amount := 25%Z |}.

(** An update to a currency PayPal does not list. *)
Definition foreign_update : UpdatePaymentProviderSession Z :=
  {| update_context := None;
     update_data := authorized_order;
     update_currency_code := "btc";
     update_amount := 25%Z |}.

Definition self_link : Link :=
  {| rel := Some "self";
     href := Some "https://api.paypal.com/v2/payments/authorizations/A-1" |}.

Definition up_link : Link :=
  {| rel := Some "up";
     href := Some "https://api.paypal.com/v2/checkout/orders/O-1" |}.

Definition slash_link : Link :=
  {| rel := Some "up";
     href := Some "https://api.paypal.com/v2/checkout/orders/" |}.

Definition webhook_options : WebhookOptions :=
  {| auth_webhook_id := Some ""; authWebhookId := Some "WH-2" |}.
End Mock.

(** Unfold the monad down to the state transformer it denotes. *)
Ltac run_async :=
  unfold try_catch, bind, await, lift, read, throw, ret; cbn.

(** ** The adapter ([PayPalBase]) *)

Section PayPalBase.
Set Default Proof Using "Type".
Context {World : Type}.
(** [os.EOL] *)
Variable EOL : string.
Variable BigNumberInput : Type.
Variable toFixed : BigNumberInput -> nat -> JsError + string.
(** JavaScript numbers, only produced by [parseFloat] here. *)
Variable Number : Type.
Variable parseFloat : string -> Number.
Variable options_ : PaypalOptions.
Variable paypal_ : PaypalSdk.client World.

Definition buildError (message : string) (error : JsError)
  : PaymentProviderError :=
  {| error := message;
     code := if has (err_code error) then get (err_code error)
             else Some "unknown";
     detail :=
       if isPaymentProviderError error
       then Some (template (get (err_error error)) +:+ EOL
                  +:+ nullish (get (err_detail error)) "")
       else if has (err_detail error) then get (err_detail error)
       else Some (nullish (get (err_message error)) "") |}.

Definition retrievePayment (paymentSessionData : SessionData)
  : Async World (option PaypalOrder) :=
  try_catch
    (let id := order_id paymentSessionData in
     order <- await (getOrder_call id) (PaypalSdk.getOrder paypal_ id) ;;
     ret (Some order))
    (fun error =>
       let _ := buildError "An error occurred in retrievePayment" error in
       ret None).

(** What [retrievePayment] makes of the answer of [getOrder]. *)
Definition answer_of (r : JsError + PaypalOrder) : option PaypalOrder :=
  match r with inr order => Some order | inl _ => None end.

(** The [switch] of [getPaymentStatus] on [order.status]. *)
Definition status_of (order_status : string) : PaymentSessionStatus :=
  if String.eqb order_status PaypalOrderStatus.CREATED then PENDING
  else if String.eqb order_status PaypalOrderStatus.SAVED
       || String.eqb order_status PaypalOrderStatus.APPROVED
       || String.eqb order_status PaypalOrderStatus.PAYER_ACTION_REQUIRED
  then REQUIRES_MORE
  else if String.eqb order_status PaypalOrderStatus.VOIDED then CANCELED
  else if String.eqb order_status PaypalOrderStatus.COMPLETED then AUTHORIZED
  else PENDING.

Definition getPaymentStatus (paymentSessionData : SessionData)
  : Async World PaymentSessionStatus :=
  order <- retrievePayment paymentSessionData ;;
  order_status <- read order "status" status ;;
  ret (status_of order_status).

(** The body [initiatePayment] sends to [createOrder]. *)
Definition order_request (session_id : option string) (amount : Money)
  : CreateOrder :=
  let intent :=
    match capture options_ with
    | Some true => CAPTURE
    | _ => AUTHORIZE
    end in
  {| intent := intent;
     co_purchase_units :=
       [ {| cu_custom_id := session_id; cu_amount := amount |} ] |}.

Definition initiate_message : string :=
  "An error ocurred in InitiatePayment during the creation of the PayPal payment intent".

Definition initiatePayment (input : CreatePaymentProviderSession BigNumberInput)
  : Async World (ErrorOr PaymentProviderSessionResponse) :=
  session_id <-
    match create_context input with
    | Some context => ret (session_id context)
    | None => throw (TypeError_destructure "session_id" "input.context")
    end ;;
  let currency_code := create_currency_code input in
  let amount := create_amount input in
  try_catch
    (amount' <- lift (convertAmount BigNumberInput toFixed amount currency_code) ;;
     let body := order_request session_id amount' in
     sessionData <-
       await (createOrder_call body) (PaypalSdk.createOrder paypal_ body) ;;
     ret (IsData {| response_data := sessionData |}))
    (fun e => ret (IsError (buildError initiate_message e))).

Definition authorizePayment (paymentSessionData : SessionData)
  : Async World (ErrorOr AuthorizeResult) :=
  try_catch
    (status <- getPaymentStatus paymentSessionData ;;
     data <- retrievePayment paymentSessionData ;;
     ret (IsData {| auth_data := data; auth_status := status |}))
    (fun error =>
       ret (IsError (buildError "An error occurred in authorizePayment" error))).

(** [pu.payments.captures?.length], as a condition. *)
Definition has_captures (pu : PurchaseUnit) : bool :=
  match captures (payments pu) with
  | Some (_ :: _) => true
  | _ => false
  end.

(** [payments.captures[0].id] *)
Definition first_capture_id (p : Payments) : Async World string :=
  capture0 <- read (captures p) "0" (fun cs => cs !! 0) ;;
  read capture0 "id" pay_id.

(** [payments.authorizations[0].id] *)
Definition first_authorization_id (p : Payments) : Async World string :=
  read (authorizations p !! 0) "id" pay_id.

Definition cancelPayment (paymentSessionData : SessionData)
  : Async World (ErrorOr (option PaypalOrder)) :=
  order <- retrievePayment paymentSessionData ;;
  order_status <- read order "status" status ;;
  order_invoice_id <- read order "invoice_id" invoice_id ;;
  let isAlreadyCanceled := String.eqb order_status PaypalOrderStatus.VOIDED in
  let isCanceledAndFullyRefunded :=
    String.eqb order_status PaypalOrderStatus.COMPLETED
    && match order_invoice_id with
       | Some s => negb (String.eqb s "")
       | None => false
       end in
  if isAlreadyCanceled || isCanceledAndFullyRefunded then ret (IsData order)
  else
    try_catch
      (let purchase_units := purchase_units paymentSessionData in
       let isAlreadyCaptured := existsb has_captures purchase_units in
       (if isAlreadyCaptured then
          payments <- read (purchase_units !! 0) "payments" payments ;;
          payId <- first_capture_id payments ;;
          await (refundPayment_call payId None)
                (PaypalSdk.refundPayment paypal_ payId None)
        else
          payments <- read (purchase_units !! 0) "payments" payments ;;
          id <- first_authorization_id payments ;;
          await (cancelAuthorizedPayment_call id)
                (PaypalSdk.cancelAuthorizedPayment paypal_ id)) ;;;
       fresh <- retrievePayment paymentSessionData ;;
       ret (IsData fresh))
      (fun error =>
         ret (IsError (buildError "An error occurred in cancelPayment" error))).

Definition capturePayment (paymentSessionData : SessionData)
  : Async World (ErrorOr (option PaypalOrder)) :=
  let purchase_units := purchase_units paymentSessionData in
  payments <- read (purchase_units !! 0) "payments" payments ;;
  id <- first_authorization_id payments ;;
  try_catch
    (await (captureAuthorizedPayment_call id)
           (PaypalSdk.captureAuthorizedPayment paypal_ id) ;;;
     fresh <- retrievePayment paymentSessionData ;;
     ret (IsData fresh))
    (fun error =>
       ret (IsError (buildError "an error occurred in capturePayment" error))).

Definition deletePayment (paymentSessionData : SessionData)
  : Async World (ErrorOr SessionData) :=
  ret (IsData paymentSessionData).

Definition refundPayment (paymentSessionData : SessionData)
    (refundAmount : BigNumberInput)
  : Async World (ErrorOr (option PaypalOrder)) :=
  let purchase_units := purchase_units paymentSessionData in
  try_catch
    (let purchaseUnit := purchase_units !! 0 in
     payments <- read purchaseUnit "payments" payments ;;
     let isAlreadyCaptured := existsb has_captures purchase_units in
     (if negb isAlreadyCaptured
      then throw (Error "Cannot refund an uncaptured payment")
      else ret tt) ;;;
     paymentId <- first_capture_id payments ;;
     currency_code <-
       read purchaseUnit "amount" (fun pu => currency_code (pu_amount pu)) ;;
     amount <-
       lift (convertAmount BigNumberInput toFixed refundAmount currency_code) ;;
     let body := Some {| refund_amount := amount |} in
     await (refundPayment_call paymentId body)
           (PaypalSdk.refundPayment paypal_ paymentId body) ;;;
     fresh <- retrievePayment paymentSessionData ;;
     ret (IsData fresh))
    (fun error =>
       ret (IsError (buildError "An error occurred in refundPayment" error))).

(** The normalized error of a refund asked for before any capture. *)
Definition uncaptured_refund : PaymentProviderError :=
  {| error := "An error occurred in refundPayment";
     code := Some "unknown";
     detail := Some "Cannot refund an uncaptured payment" |}.

(** The patch document [updatePayment] sends to [patchOrder]. *)
Definition amount_patch (amount : Money) : list PatchOp :=
  [ {| op := "replace";
       path := "/purchase_units/@reference_id=='default'";
       patch_amount := amount |} ].

Definition updatePayment (input : UpdatePaymentProviderSession BigNumberInput)
  : Async World (ErrorOr PaymentProviderSessionResponse) :=
  try_catch
    (let currency_code := update_currency_code input in
     let amount := update_amount input in
     let id := order_id (update_data input) in
     amount' <- lift (convertAmount BigNumberInput toFixed amount currency_code) ;;
     await (patchOrder_call id (amount_patch amount'))
           (PaypalSdk.patchOrder paypal_ id (amount_patch amount')) ;;;
     ret (IsData {| response_data := update_data input |}))
    (fun error =>
       try_catch
         (initiatePayment (as_create input))
         (fun e =>
            ret (IsError
                   (buildError "An error occurred in updatePayment" error)))).

Definition updatePaymentData (sessionId : string) (data : gmap string JsVal)
  : Async World (ErrorOr (gmap string JsVal)) :=
  try_catch
    ((if truthy (default VUndefined (data !! "amount"))
      then throw (MedusaError INVALID_DATA
                    "Cannot update amount, use updatePayment instead")
      else ret tt) ;;;
     ret (IsData data))
    (fun error =>
       ret (IsError (buildError "An error occurred in updatePaymentData" error))).

(** The normalized error of an amount passed to [updatePaymentData]. *)
Definition invalid_data_update : PaymentProviderError :=
  {| error := "An error occurred in updatePaymentData";
     code := None;
     detail := Some "Cannot update amount, use updatePayment instead" |}.

(** [(l) => l.rel === "up"] *)
Definition is_up (l : Link) : bool :=
  match rel l with
  | Some r => String.eqb r "up"
  | None => false
  end.

(** Returns [None] for [null]. *)
Definition retrieveOrderFromAuth (authorization : Authorization)
  : Async World (option PaypalOrder) :=
  let link := find is_up (links authorization) in
  link_href <- read link "href" href ;;
  parts <- read link_href "split" (split "/") ;;
  let orderId := parts !! (length parts - 1) in
  match orderId with
  | None | Some EmptyString => ret None
  | Some orderId =>
      order <- await (getOrder_call orderId)
                     (PaypalSdk.getOrder paypal_ orderId) ;;
      ret (Some order)
  end.

Definition getWebhookActionAndData (webhookData_data : SessionData)
  : Async World (WebhookActionResult Number) :=
  let purchase_units := purchase_units webhookData_data in
  let purchaseUnit := purchase_units !! 0 in
  payments <- read purchaseUnit "payments" payments ;;
  paymentId <- first_capture_id payments ;;
  authorizationId <- first_authorization_id payments ;;
  amount <-
    read purchaseUnit "amount" (fun pu => parseFloat (value (pu_amount pu))) ;;
  let event := "unknown" in
  if String.eqb event "authorized" then
    ret {| action := ACTION_AUTHORIZED;
           action_data :=
             Some {| wh_amount := amount; wh_session_id := authorizationId |} |}
  else if String.eqb event "succeeded" then
    ret {| action := ACTION_SUCCESSFUL;
           action_data :=
             Some {| wh_amount := amount; wh_session_id := paymentId |} |}
  else if String.eqb event "failed" then
    (* [paymentId ?? authorizationId], with [paymentId] a string *)
    ret {| action := ACTION_FAILED;
           action_data :=
             Some {| wh_amount := amount; wh_session_id := paymentId |} |}
  else ret {| action := ACTION_NOT_SUPPORTED; action_data := None |}.

(** [isDefined(v)] of @medusajs/utils is [v !== undefined && v !== null];
    an option left out is [None]. *)
Definition validateOptions (options : PaypalOptions) : JsError + unit :=
  match clientId options with
  | None =>
      inl (Error "Required option `clientId` is missing in PayPal plugin")
  | Some _ =>
      match clientSecret options with
      | None =>
          inl (Error "Required option `clientSecret` is missing in PayPal plugin")
      | Some _ => inr tt
      end
  end.

(** [verifyWebhook] delegates to the client's capability of the same name. *)
Definition verifyWebhook {Answer : Type}
    (client_verifyWebhook : gmap string JsVal -> World -> Answer)
    (options : WebhookOptions) (data : gmap string JsVal) : World -> Answer :=
  client_verifyWebhook (verifyWebhook_request options data).

(** The calls a computation adds to the log satisfy [Q], whatever the state
    it starts in. *)
Definition logs {A} (Q : list Call -> Prop) (m : Async World A) : Prop :=
  forall env, exists cs, issued (m env).2 = issued env ++ cs /\ Q cs.

Definition is_getOrder (c : Call) : Prop := is_mutation c = false.

(** Whether character [c] occurs in [s]. *)
Fixpoint occurs (c : ascii) (s : string) : bool :=
  match s with
  | EmptyString => false
  | String c' s' => Ascii.eqb c' c || occurs c s'
  end.

(** A computation whose normal results are all data, never an error
    object. *)
Definition yields_data {B} (m : Async World (ErrorOr B)) : Prop :=
  forall env r env', m env = (Returns r, env') -> exists b, r = IsData b.

(** The currencies rendered without decimals. *)
Definition zero_decimal_codes : list string := ["HUF"; "JPY"; "TWD"].

(** * Properties of the adapter, against an arbitrary client *)

Lemma after_after (env : Env World) cs1 w1 cs2 w2 :
  after (after env cs1 w1) cs2 w2 = after env (cs1 ++ cs2) w2.
Proof. unfold after; cbn. by rewrite <- app_assoc. Qed.

Lemma retrievePayment_found sd env o w' :
  PaypalSdk.getOrder paypal_ (order_id sd) (world env) = (inr o, w') ->
  retrievePayment sd env
  = (Returns (Some o), after env [getOrder_call (order_id sd)] w').
Proof. intros H. unfold retrievePayment. run_async. by rewrite H. Qed.

Lemma retrievePayment_failed sd env e w' :
  PaypalSdk.getOrder paypal_ (order_id sd) (world env) = (inl e, w') ->
  retrievePayment sd env
  = (Returns None, after env [getOrder_call (order_id sd)] w').
Proof. intros H. unfold retrievePayment. run_async. by rewrite H. Qed.

Lemma retrievePayment_run sd env :
  retrievePayment sd env
  = let '(r, w') := PaypalSdk.getOrder paypal_ (order_id sd) (world env) in
    (Returns (answer_of r), after env [getOrder_call (order_id sd)] w').
Proof.
  unfold retrievePayment. run_async.
  by destruct (PaypalSdk.getOrder paypal_ (order_id sd) (world env))
    as [[e | o] w'].
Qed.

(** [retrievePayment] always returns, after exactly one [getOrder]. *)
Lemma retrievePayment_returns sd env :
  exists fresh w',
    retrievePayment sd env
    = (Returns fresh, after env [getOrder_call (order_id sd)] w')
    /\ (fresh = None \/
        exists o, fresh = Some o /\
          PaypalSdk.getOrder paypal_ (order_id sd) (world env) = (inr o, w')).
Proof.
  destruct (PaypalSdk.getOrder paypal_ (order_id sd) (world env))
    as [[e | o] w'] eqn:H.
  - exists None, w'. split; [by apply retrievePayment_failed with e | by left].
  - exists (Some o), w'. split; [by apply retrievePayment_found | right; eauto].
Qed.

(** C6: when the remote [getOrder] call fails, [retrievePayment] neither
    throws nor returns the normalized error it builds: it returns
    [undefined], having issued that one call. *)
Theorem retrievePayment_swallows_failure sd env e w' :
  PaypalSdk.getOrder paypal_ (order_id sd) (world env) = (inl e, w') ->
  retrievePayment sd env
  = (Returns None, after env [getOrder_call (order_id sd)] w').
Proof. apply retrievePayment_failed. Qed.

Lemma status_of_other s :
  s <> "CREATED" -> s <> "SAVED" -> s <> "APPROVED" ->
  s <> "PAYER_ACTION_REQUIRED" -> s <> "VOIDED" -> s <> "COMPLETED" ->
  status_of s = PENDING.
Proof.
  intros H1 H2 H3 H4 H5 H6. unfold status_of.
  unfold PaypalOrderStatus.CREATED, PaypalOrderStatus.SAVED,
    PaypalOrderStatus.APPROVED, PaypalOrderStatus.PAYER_ACTION_REQUIRED,
    PaypalOrderStatus.VOIDED, PaypalOrderStatus.COMPLETED.
  apply String.eqb_neq in H1, H2, H3, H4, H5, H6.
  by rewrite H1, H2, H3, H4, H5, H6.
Qed.

(** C2: when the retrieval yields an order, [getPaymentStatus] returns the
    session status fixed by that order's [status] alone: CREATED gives
    PENDING; SAVED, APPROVED and PAYER_ACTION_REQUIRED give REQUIRES_MORE;
    VOIDED gives CANCELED; COMPLETED gives AUTHORIZED; any other status
    gives PENDING, and the call does not fail. *)
Theorem getPaymentStatus_table sd env o w' :
  PaypalSdk.getOrder paypal_ (order_id sd) (world env) = (inr o, w') ->
  exists s,
    getPaymentStatus sd env
    = (Returns s, after env [getOrder_call (order_id sd)] w')
    /\ (status o = "CREATED" -> s = PENDING)
    /\ (status o = "SAVED" \/ status o = "APPROVED"
        \/ status o = "PAYER_ACTION_REQUIRED" -> s = REQUIRES_MORE)
    /\ (status o = "VOIDED" -> s = CANCELED)
    /\ (status o = "COMPLETED" -> s = AUTHORIZED)
    /\ (status o ∉ ["CREATED"; "SAVED"; "APPROVED"; "PAYER_ACTION_REQUIRED";
                    "VOIDED"; "COMPLETED"] -> s = PENDING).
Proof.
  intros H. exists (status_of (status o)). split.
  - unfold getPaymentStatus, bind.
    rewrite (retrievePayment_found _ _ _ _ H). reflexivity.
  - repeat split.
    + by intros ->.
    + by intros [-> | [-> | ->]].
    + by intros ->.
    + by intros ->.
    + intros Hn. apply status_of_other; intros Heq; apply Hn; rewrite Heq;
      repeat first [apply list_elem_of_here | apply list_elem_of_further].
Qed.

(** C3: when the freshly retrieved order is VOIDED, or COMPLETED with a
    non-empty [invoice_id], [cancelPayment] returns that very order and the
    only call it has issued is the [getOrder] of the retrieval: no refund,
    no void, no patch. *)
Theorem cancelPayment_short_circuit sd env o w' :
  PaypalSdk.getOrder paypal_ (order_id sd) (world env) = (inr o, w') ->
  status o = "VOIDED"
  \/ (status o = "COMPLETED"
      /\ exists inv, invoice_id o = Some inv /\ inv <> "") ->
  cancelPayment sd env
  = (Returns (IsData (Some o)), after env [getOrder_call (order_id sd)] w')
  /\ filter (fun c => is_mutation c = true)
       (issued (after env [getOrder_call (order_id sd)] w'))
     = filter (fun c => is_mutation c = true) (issued env).
Proof.
  intros H Hs. split.
  - unfold cancelPayment, bind at 1.
    rewrite (retrievePayment_found _ _ _ _ H). run_async.
    destruct Hs as [-> | [-> (inv & -> & Hinv)]]; cbn; [reflexivity |].
    apply String.eqb_neq in Hinv. by rewrite Hinv.
  - cbn. rewrite filter_app. cbn. by rewrite app_nil_r.
Qed.

Lemma initiatePayment_no_context input env :
  create_context input = None ->
  initiatePayment input env
  = (Throws (TypeError_destructure "session_id" "input.context"), env).
Proof. intros H. unfold initiatePayment. run_async. by rewrite H. Qed.

Lemma initiatePayment_unformattable input env ctx e :
  create_context input = Some ctx ->
  convertAmount BigNumberInput toFixed (create_amount input)
    (create_currency_code input) = inl e ->
  initiatePayment input env
  = (Returns (IsError (buildError initiate_message e)), env).
Proof.
  intros Hc Hm. unfold initiatePayment. run_async. by rewrite Hc, Hm.
Qed.

Lemma initiatePayment_created input env ctx m o w' :
  create_context input = Some ctx ->
  convertAmount BigNumberInput toFixed (create_amount input)
    (create_currency_code input) = inr m ->
  PaypalSdk.createOrder paypal_ (order_request (session_id ctx) m) (world env)
  = (inr o, w') ->
  initiatePayment input env
  = (Returns (IsData {| response_data := o |}),
     after env [createOrder_call (order_request (session_id ctx) m)] w').
Proof.
  intros Hc Hm Ho. unfold initiatePayment. run_async.
  rewrite Hc, Hm. cbn. by rewrite Ho.
Qed.

Lemma initiatePayment_rejected input env ctx m e w' :
  create_context input = Some ctx ->
  convertAmount BigNumberInput toFixed (create_amount input)
    (create_currency_code input) = inr m ->
  PaypalSdk.createOrder paypal_ (order_request (session_id ctx) m) (world env)
  = (inl e, w') ->
  initiatePayment input env
  = (Returns (IsError (buildError initiate_message e)),
     after env [createOrder_call (order_request (session_id ctx) m)] w').
Proof.
  intros Hc Hm Ho. unfold initiatePayment. run_async.
  rewrite Hc, Hm. cbn. by rewrite Ho.
Qed.

(** What [updatePayment] does once its [patchOrder] call has failed with
    [e]: it runs [initiatePayment] on the same input, and answers a
    rejection of that with the normalized patch error. *)
Lemma updatePayment_falls_back input env m e w' :
  convertAmount BigNumberInput toFixed (update_amount input)
    (update_currency_code input) = inr m ->
  PaypalSdk.patchOrder paypal_ (order_id (update_data input)) (amount_patch m)
    (world env) = (inl e, w') ->
  updatePayment input env
  = try_catch
      (initiatePayment (as_create input))
      (fun _ =>
         ret (IsError (buildError "An error occurred in updatePayment" e)))
      (after env [patchOrder_call (order_id (update_data input))
                    (amount_patch m)] w').
Proof.
  intros Hm Hp. unfold updatePayment.
  unfold try_catch at 1. unfold bind, lift, await.
  rewrite Hm. unfold ret at 1. rewrite Hp. reflexivity.
Qed.

(** C7: when the remote [patchOrder] call fails, [updatePayment] does not
    return the patch error: it re-runs [initiatePayment] on the same input
    (the new amount and currency), right after the failed patch, and
    returns what that returns - with a context, the order created for the
    formatted new amount; and when the fallback throws, it returns the
    normalized error built from the original patch error. *)
Theorem updatePayment_patch_failure_falls_back input env m e w' :
  convertAmount BigNumberInput toFixed (update_amount input)
    (update_currency_code input) = inr m ->
  PaypalSdk.patchOrder paypal_ (order_id (update_data input)) (amount_patch m)
    (world env) = (inl e, w') ->
  let patch :=
    patchOrder_call (order_id (update_data input)) (amount_patch m) in
  let env1 := after env [patch] w' in
  (forall r env2,
      initiatePayment (as_create input) env1 = (Returns r, env2) ->
      updatePayment input env = (Returns r, env2))
  /\ (forall e' env2,
      initiatePayment (as_create input) env1 = (Throws e', env2) ->
      updatePayment input env
      = (Returns (IsError (buildError "An error occurred in updatePayment" e)),
         env2))
  /\ (forall ctx o w2,
      update_context input = Some ctx ->
      PaypalSdk.createOrder paypal_ (order_request (session_id ctx) m) w'
      = (inr o, w2) ->
      updatePayment input env
      = (Returns (IsData {| response_data := o |}),
         after env [patch; createOrder_call (order_request (session_id ctx) m)]
           w2))
  /\ (update_context input = None ->
      updatePayment input env
      = (Returns (IsError (buildError "An error occurred in updatePayment" e)),
         env1)).
Proof.
  intros Hm Hp patch env1.
  pose proof (updatePayment_falls_back _ _ _ _ _ Hm Hp) as Hfb.
  fold patch in Hfb. fold env1 in Hfb.
  repeat split.
  - intros r env2 Hi. rewrite Hfb. unfold try_catch. by rewrite Hi.
  - intros e' env2 Hi. rewrite Hfb. unfold try_catch. by rewrite Hi.
  - intros ctx o w2 Hc Ho. rewrite Hfb. unfold try_catch.
    rewrite (initiatePayment_created (as_create input) env1 ctx m o w2);
      [| done | done | done].
    unfold env1. by rewrite after_after.
  - intros Hc. rewrite Hfb. unfold try_catch.
    by rewrite (initiatePayment_no_context (as_create input) env1).
Qed.

(** C10: when the remote [patchOrder] call succeeds, [updatePayment]
    returns the session data it was given, unchanged, and issues no call
    besides that patch: the patched order is not retrieved again. *)
Theorem updatePayment_patched_returns_input input env m w' :
  convertAmount BigNumberInput toFixed (update_amount input)
    (update_currency_code input) = inr m ->
  PaypalSdk.patchOrder paypal_ (order_id (update_data input)) (amount_patch m)
    (world env) = (inr tt, w') ->
  updatePayment input env
  = (Returns (IsData {| response_data := update_data input |}),
     after env [patchOrder_call (order_id (update_data input)) (amount_patch m)]
       w').
Proof.
  intros Hm Hp. unfold updatePayment. run_async. rewrite Hm. cbn.
  by rewrite Hp.
Qed.

Lemma not_short_circuit o :
  status o <> "VOIDED" ->
  (status o = "COMPLETED" -> invoice_id o = None \/ invoice_id o = Some "") ->
  String.eqb (status o) PaypalOrderStatus.VOIDED
  || (String.eqb (status o) PaypalOrderStatus.COMPLETED
      && match invoice_id o with
         | Some s => negb (String.eqb s "")
         | None => false
         end) = false.
Proof.
  intros Hv Hc. apply String.eqb_neq in Hv.
  unfold PaypalOrderStatus.VOIDED, PaypalOrderStatus.COMPLETED.
  rewrite Hv. cbn.
  destruct (String.eqb_spec (status o) "COMPLETED") as [Heq | Hne]; [| done].
  by destruct (Hc Heq) as [-> | ->].
Qed.

(** [cancelPayment] past the short-circuit is its guarded block, run
    after the first retrieval. *)
Lemma cancelPayment_past_short_circuit sd env o w1 :
  PaypalSdk.getOrder paypal_ (order_id sd) (world env) = (inr o, w1) ->
  status o <> "VOIDED" ->
  (status o = "COMPLETED" -> invoice_id o = None \/ invoice_id o = Some "") ->
  cancelPayment sd env
  = try_catch
      ((if existsb has_captures (purchase_units sd) then
          payments <- read (purchase_units sd !! 0) "payments" payments ;;
          payId <- first_capture_id payments ;;
          await (refundPayment_call payId None)
                (PaypalSdk.refundPayment paypal_ payId None)
        else
          payments <- read (purchase_units sd !! 0) "payments" payments ;;
          id <- first_authorization_id payments ;;
          await (cancelAuthorizedPayment_call id)
                (PaypalSdk.cancelAuthorizedPayment paypal_ id)) ;;;
       fresh <- retrievePayment sd ;;
       ret (IsData fresh))
      (fun error =>
         ret (IsError (buildError "An error occurred in cancelPayment" error)))
      (after env [getOrder_call (order_id sd)] w1).
Proof.
  intros Ho Hv Hc. unfold cancelPayment. unfold bind at 1.
  rewrite (retrievePayment_found _ _ _ _ Ho).
  unfold read at 1 2, bind at 1 2, ret at 1 2.
  by rewrite (not_short_circuit o Hv Hc).
Qed.

(** C4, as amended: past the short-circuit, when the first purchase unit
    of the session data has a capture, [cancelPayment] issues one refund
    call, against that unit's first capture id, and no void call; when no
    purchase unit has a capture and the first one has an authorization, it
    issues one void call, against that unit's first authorization id, and no
    refund call.  If the mutating call succeeds the order is retrieved again
    and the outcome of that retrieval is returned (the fresh order, or
    [undefined] when the retrieval fails); if it fails, a normalized error
    is returned and nothing is retrieved. *)
Theorem cancelPayment_refunds_or_voids sd env o w1 pu rest :
  PaypalSdk.getOrder paypal_ (order_id sd) (world env) = (inr o, w1) ->
  status o <> "VOIDED" ->
  (status o = "COMPLETED" -> invoice_id o = None \/ invoice_id o = Some "") ->
  purchase_units sd = pu :: rest ->
  let retrieve := getOrder_call (order_id sd) in
  (forall c cs,
      captures (payments pu) = Some (c :: cs) ->
      let refund := refundPayment_call (pay_id c) None in
      (forall w2,
          PaypalSdk.refundPayment paypal_ (pay_id c) None w1 = (inr tt, w2) ->
          cancelPayment sd env
          = let '(r, w3) := PaypalSdk.getOrder paypal_ (order_id sd) w2 in
            (Returns (IsData (answer_of r)),
             after env [retrieve; refund; retrieve] w3))
      /\ (forall e w2,
          PaypalSdk.refundPayment paypal_ (pay_id c) None w1 = (inl e, w2) ->
          cancelPayment sd env
          = (Returns
               (IsError (buildError "An error occurred in cancelPayment" e)),
             after env [retrieve; refund] w2)))
  /\ (forall a auths,
      existsb has_captures (purchase_units sd) = false ->
      authorizations (payments pu) = a :: auths ->
      let void := cancelAuthorizedPayment_call (pay_id a) in
      (forall w2,
          PaypalSdk.cancelAuthorizedPayment paypal_ (pay_id a) w1
          = (inr tt, w2) ->
          cancelPayment sd env
          = let '(r, w3) := PaypalSdk.getOrder paypal_ (order_id sd) w2 in
            (Returns (IsData (answer_of r)),
             after env [retrieve; void; retrieve] w3))
      /\ (forall e w2,
          PaypalSdk.cancelAuthorizedPayment paypal_ (pay_id a) w1
          = (inl e, w2) ->
          cancelPayment sd env
          = (Returns
               (IsError (buildError "An error occurred in cancelPayment" e)),
             after env [retrieve; void] w2))).
Proof.
  intros Ho Hv Hc Hpu retrieve.
  pose proof (cancelPayment_past_short_circuit sd env o w1 Ho Hv Hc) as Hrun.
  fold retrieve in Hrun. split.
  - intros c cs Hcap refund.
    assert (Hsome : existsb has_captures (purchase_units sd) = true).
    { rewrite Hpu. cbn. unfold has_captures at 1. by rewrite Hcap. }
    rewrite Hsome, Hpu in Hrun. split.
    + intros w2 Hr. rewrite Hrun.
      unfold try_catch, bind, first_capture_id, read, await, ret, bind.
      cbn. rewrite Hcap. cbn. rewrite Hr.
      rewrite retrievePayment_run. cbn.
      destruct (PaypalSdk.getOrder paypal_ (order_id sd) w2) as [r w3].
      unfold after; cbn. by rewrite <- !app_assoc.
    + intros e w2 Hr. rewrite Hrun.
      unfold try_catch, bind, first_capture_id, read, await, ret, bind.
      cbn. rewrite Hcap. cbn. rewrite Hr.
      unfold after; cbn. by rewrite <- !app_assoc.
  - intros a auths Hnone Hauth void.
    rewrite Hnone, Hpu in Hrun. split.
    + intros w2 Hr. rewrite Hrun.
      unfold try_catch, bind, first_authorization_id, read, await, ret.
      cbn. rewrite Hauth. cbn. rewrite Hr.
      rewrite retrievePayment_run. cbn.
      destruct (PaypalSdk.getOrder paypal_ (order_id sd) w2) as [r w3].
      unfold after; cbn. by rewrite <- !app_assoc.
    + intros e w2 Hr. rewrite Hrun.
      unfold try_catch, bind, first_authorization_id, read, await, ret.
      cbn. rewrite Hauth. cbn. rewrite Hr.
      unfold after; cbn. by rewrite <- !app_assoc.
Qed.

Lemma refundPayment_no_purchase_unit sd refundAmount env :
  purchase_units sd = [] ->
  refundPayment sd refundAmount env
  = (Returns
       (IsError (buildError "An error occurred in refundPayment"
                   (TypeError_undefined "payments"))),
     env).
Proof. intros H. unfold refundPayment. run_async. by rewrite H. Qed.

(** C5, as amended: for session data with at least one purchase unit and
    no capture in any of them, [refundPayment] returns, for every amount,
    the normalized error of the uncaptured-refund violation and issues no
    remote call.  When the first purchase unit has a capture and the amount
    formats in that unit's currency, one refund call is issued, against that
    unit's first capture id and with the formatted amount; if it succeeds
    the order is retrieved again and the outcome of that retrieval is
    returned, and if it fails a normalized error is returned.  When the
    amount does not format, a normalized error is returned and no remote
    call is issued. *)
Theorem refundPayment_requires_capture sd refundAmount env pu rest :
  purchase_units sd = pu :: rest ->
  (existsb has_captures (purchase_units sd) = false ->
   refundPayment sd refundAmount env = (Returns (IsError uncaptured_refund), env))
  /\ (forall c cs,
      captures (payments pu) = Some (c :: cs) ->
      (forall m,
          convertAmount BigNumberInput toFixed refundAmount
            (currency_code (pu_amount pu)) = inr m ->
          let body := Some {| refund_amount := m |} in
          let refund := refundPayment_call (pay_id c) body in
          (forall w1,
              PaypalSdk.refundPayment paypal_ (pay_id c) body (world env)
              = (inr tt, w1) ->
              refundPayment sd refundAmount env
              = let '(r, w2) := PaypalSdk.getOrder paypal_ (order_id sd) w1 in
                (Returns (IsData (answer_of r)),
                 after env [refund; getOrder_call (order_id sd)] w2))
          /\ (forall e w1,
              PaypalSdk.refundPayment paypal_ (pay_id c) body (world env)
              = (inl e, w1) ->
              refundPayment sd refundAmount env
              = (Returns
                   (IsError
                      (buildError "An error occurred in refundPayment" e)),
                 after env [refund] w1)))
      /\ (forall e,
          convertAmount BigNumberInput toFixed refundAmount
            (currency_code (pu_amount pu)) = inl e ->
          refundPayment sd refundAmount env
          = (Returns
               (IsError (buildError "An error occurred in refundPayment" e)),
             env))).
Proof.
  intros Hpu. split.
  - intros Hnone. unfold refundPayment. run_async.
    rewrite Hpu. cbn. rewrite Hpu in Hnone. cbn in Hnone. by rewrite Hnone.
  - intros c cs Hcap.
    assert (Hsome : existsb has_captures (purchase_units sd) = true).
    { rewrite Hpu. cbn. unfold has_captures at 1. by rewrite Hcap. }
    split; [intros m Hm body refund; split |].
    + intros w1 Hr. unfold refundPayment.
      unfold try_catch, bind, first_capture_id, read, lift, await, ret, bind.
      rewrite Hsome, Hpu. cbn. rewrite Hcap. cbn. rewrite Hm. cbn.
      fold body. rewrite Hr.
      rewrite retrievePayment_run. cbn.
      destruct (PaypalSdk.getOrder paypal_ (order_id sd) w1) as [r w2].
      unfold after; cbn. by rewrite <- !app_assoc.
    + intros e w1 Hr. unfold refundPayment.
      unfold try_catch, bind, first_capture_id, read, lift, await, ret, bind.
      rewrite Hsome, Hpu. cbn. rewrite Hcap. cbn. rewrite Hm. cbn.
      fold body. by rewrite Hr.
    + intros e Hm. unfold refundPayment.
      unfold try_catch, bind, first_capture_id, read, lift, await, ret, bind.
      rewrite Hsome, Hpu. cbn. rewrite Hcap. cbn. by rewrite Hm.
Qed.

(** *** Where nothing escapes *)

Lemma try_catch_returns {A} (body : Async World A) handler :
  (forall e, returns (handler e)) -> returns (try_catch body handler).
Proof.
  intros Hh env. unfold try_catch.
  destruct (body env) as [[a | e] env']; [by eauto |]. apply Hh.
Qed.

Lemma ret_returns {A} (a : A) : returns (ret (World := World) a).
Proof. intros env. by exists a, env. Qed.

Lemma retrievePayment_normalizes sd : returns (retrievePayment sd).
Proof. apply try_catch_returns. intros e. apply ret_returns. Qed.

Lemma authorizePayment_normalizes sd : returns (authorizePayment sd).
Proof. apply try_catch_returns. intros e. apply ret_returns. Qed.

Lemma refundPayment_normalizes sd refundAmount :
  returns (refundPayment sd refundAmount).
Proof. apply try_catch_returns. intros e. apply ret_returns. Qed.

Lemma updatePayment_normalizes input : returns (updatePayment input).
Proof.
  apply try_catch_returns. intros e.
  apply try_catch_returns. intros e'. apply ret_returns.
Qed.

Lemma updatePaymentData_normalizes sessionId data :
  returns (updatePaymentData sessionId data).
Proof. apply try_catch_returns. intros e. apply ret_returns. Qed.

Lemma deletePayment_normalizes sd : returns (deletePayment sd).
Proof. apply ret_returns. Qed.

Lemma initiatePayment_normalizes input ctx :
  create_context input = Some ctx -> returns (initiatePayment input).
Proof.
  intros Hc env. unfold initiatePayment, bind at 1. rewrite Hc.
  unfold ret at 1. apply try_catch_returns. intros e. apply ret_returns.
Qed.

(** *** Where exceptions escape *)

Lemma capturePayment_no_purchase_unit sd env :
  purchase_units sd = [] ->
  capturePayment sd env = (Throws (TypeError_undefined "payments"), env).
Proof. intros H. unfold capturePayment. run_async. by rewrite H. Qed.

Lemma capturePayment_no_authorization sd env pu rest :
  purchase_units sd = pu :: rest ->
  authorizations (payments pu) = [] ->
  capturePayment sd env = (Throws (TypeError_undefined "id"), env).
Proof.
  intros H Ha. unfold capturePayment, first_authorization_id. run_async.
  rewrite H. cbn. by rewrite Ha.
Qed.

Lemma getWebhookActionAndData_no_purchase_unit data env :
  purchase_units data = [] ->
  getWebhookActionAndData data env
  = (Throws (TypeError_undefined "payments"), env).
Proof. intros H. unfold getWebhookActionAndData. run_async. by rewrite H. Qed.

Lemma getPaymentStatus_unretrieved sd env e w' :
  PaypalSdk.getOrder paypal_ (order_id sd) (world env) = (inl e, w') ->
  getPaymentStatus sd env
  = (Throws (TypeError_undefined "status"),
     after env [getOrder_call (order_id sd)] w').
Proof.
  intros H. unfold getPaymentStatus, bind.
  by rewrite (retrievePayment_failed _ _ _ _ H).
Qed.

Lemma cancelPayment_unretrieved sd env e w' :
  PaypalSdk.getOrder paypal_ (order_id sd) (world env) = (inl e, w') ->
  cancelPayment sd env
  = (Throws (TypeError_undefined "status"),
     after env [getOrder_call (order_id sd)] w').
Proof.
  intros H. unfold cancelPayment. unfold bind at 1.
  by rewrite (retrievePayment_failed _ _ _ _ H).
Qed.

(** C1: on session data with an empty [purchase_units] list, whatever the
    client, [capturePayment] and [getWebhookActionAndData] end with the
    runtime's TypeError thrown to the caller, not with a normalized error
    returned. *)
Theorem capturePayment_exception_escapes (env : Env World) :
  capturePayment (Mock.order "APPROVED" None []) env
  = (Throws (TypeError_undefined "payments"), env)
  /\ getWebhookActionAndData (Mock.order "APPROVED" None []) env
     = (Throws (TypeError_undefined "payments"), env).
Proof.
  split.
  - by apply capturePayment_no_purchase_unit.
  - by apply getWebhookActionAndData_no_purchase_unit.
Qed.

(** *** [retrieveOrderFromAuth] *)

Lemma retrieveOrderFromAuth_no_up_link authorization env :
  find is_up (links authorization) = None ->
  retrieveOrderFromAuth authorization env
  = (Throws (TypeError_undefined "href"), env).
Proof.
  intros H. unfold retrieveOrderFromAuth. rewrite H. reflexivity.
Qed.

Lemma retrieveOrderFromAuth_up_link authorization env l h orderId c :
  find is_up (links authorization) = Some l ->
  href l = Some h ->
  split "/" h !! (length (split "/" h) - 1) = Some (String c orderId) ->
  retrieveOrderFromAuth authorization env
  = match PaypalSdk.getOrder paypal_ (String c orderId) (world env) with
    | (inr o, w') =>
        (Returns (Some o), after env [getOrder_call (String c orderId)] w')
    | (inl e, w') =>
        (Throws e, after env [getOrder_call (String c orderId)] w')
    end.
Proof.
  intros Hl Hh Hs. unfold retrieveOrderFromAuth. rewrite Hl.
  run_async. rewrite Hh. cbn. rewrite Hs. run_async.
  by destruct (PaypalSdk.getOrder paypal_ (String c orderId) (world env))
    as [[e | o] w'].
Qed.

Lemma retrieveOrderFromAuth_trailing_slash authorization env l h :
  find is_up (links authorization) = Some l ->
  href l = Some h ->
  split "/" h !! (length (split "/" h) - 1) = Some "" ->
  retrieveOrderFromAuth authorization env = (Returns None, env).
Proof.
  intros Hl Hh Hs. unfold retrieveOrderFromAuth. rewrite Hl.
  run_async. rewrite Hh. cbn. by rewrite Hs.
Qed.

(** C8: for an authorization whose links hold no entry with relation
    "up", [retrieveOrderFromAuth] does not return null: reading [href] of
    the link that was not found throws a TypeError to the caller (no remote
    call is issued). *)
Theorem retrieveOrderFromAuth_throws_without_up_link (env : Env World) :
  retrieveOrderFromAuth
    {| links := [ {| rel := Some "self";
                     href := Some "https://api.paypal.com/v2/payments/authorizations/A-1" |} ] |}
    env
  = (Throws (TypeError_undefined "href"), env).
Proof. by apply retrieveOrderFromAuth_no_up_link. Qed.

(** *** [updatePaymentData] *)

Lemma updatePaymentData_truthy_amount sessionId (data : gmap string JsVal) env v :
  data !! "amount" = Some v ->
  truthy v = true ->
  updatePaymentData sessionId data env
  = (Returns (IsError invalid_data_update), env).
Proof.
  intros Hv Ht. unfold updatePaymentData. run_async. rewrite Hv. cbn.
  by rewrite Ht.
Qed.

Lemma updatePaymentData_without_amount sessionId (data : gmap string JsVal) env :
  data !! "amount" = None ->
  updatePaymentData sessionId data env = (Returns (IsData data), env).
Proof. intros Hv. unfold updatePaymentData. run_async. by rewrite Hv. Qed.

Lemma updatePaymentData_falsy_amount sessionId (data : gmap string JsVal) env v :
  data !! "amount" = Some v ->
  truthy v = false ->
  updatePaymentData sessionId data env = (Returns (IsData data), env).
Proof.
  intros Hv Ht. unfold updatePaymentData. run_async. rewrite Hv. cbn.
  by rewrite Ht.
Qed.

(** C9: a payload that contains the [amount] field with the value 0 is
    not rejected: [updatePaymentData] returns it unchanged, amount
    included. *)
Theorem updatePaymentData_zero_amount_passes sessionId (env : Env World) :
  updatePaymentData sessionId {[ "amount" := VNum 0 ]} env
  = (Returns (IsData {[ "amount" := VNum 0 ]}), env).
Proof.
  apply updatePaymentData_falsy_amount with (VNum 0); [| reflexivity].
  apply lookup_singleton_eq.
Qed.

(** *** [getPaymentStatus] and [authorizePayment] *)

Lemma status_of_range s :
  status_of s ∈ [PENDING; REQUIRES_MORE; CANCELED; AUTHORIZED].
Proof.
  unfold status_of.
  repeat match goal with
         | |- context [if ?b then _ else _] => destruct b
         end;
    repeat first [apply list_elem_of_here | apply list_elem_of_further].
Qed.

(** X6: whatever the remote order, a status [getPaymentStatus] returns is
    one of PENDING, REQUIRES_MORE, CANCELED and AUTHORIZED: it never reports
    CAPTURED or ERROR. *)
Theorem getPaymentStatus_never_captured sd env s env' :
  getPaymentStatus sd env = (Returns s, env') ->
  s ∈ [PENDING; REQUIRES_MORE; CANCELED; AUTHORIZED]
  /\ s <> CAPTURED /\ s <> ERROR.
Proof.
  intros H. unfold getPaymentStatus, bind in H.
  rewrite retrievePayment_run in H.
  destruct (PaypalSdk.getOrder paypal_ (order_id sd) (world env))
    as [[e | o] w']; cbn in H; [discriminate |].
  injection H as <- _.
  pose proof (status_of_range (status o)) as Hr.
  split; [exact Hr |].
  split; intros Heq; rewrite Heq in Hr;
    repeat (apply elem_of_cons in Hr as [Hr | Hr]; [discriminate |]);
    by apply elem_of_nil in Hr.
Qed.

(** X7: when the remote [getOrder] call fails, [getPaymentStatus] does not
    return a status: reading [status] of the [undefined] that
    [retrievePayment] returned throws a TypeError to the caller, and the error
    of the remote call is lost. *)
Theorem getPaymentStatus_throws_when_unretrieved sd env e w' :
  PaypalSdk.getOrder paypal_ (order_id sd) (world env) = (inl e, w') ->
  getPaymentStatus sd env
  = (Throws (TypeError_undefined "status"),
     after env [getOrder_call (order_id sd)] w').
Proof.
  intros H. unfold getPaymentStatus, bind.
  by rewrite (retrievePayment_failed _ _ _ _ H).
Qed.

(** X8: [authorizePayment] asks for the order twice; the status it returns
    is read off the first answer and the data is the second answer, so the
    two may describe different states of the order. *)
Theorem authorizePayment_retrieves_twice sd env o1 w1 o2 w2 :
  PaypalSdk.getOrder paypal_ (order_id sd) (world env) = (inr o1, w1) ->
  PaypalSdk.getOrder paypal_ (order_id sd) w1 = (inr o2, w2) ->
  authorizePayment sd env
  = (Returns (IsData {| auth_data := Some o2;
                        auth_status := status_of (status o1) |}),
     after env [getOrder_call (order_id sd); getOrder_call (order_id sd)] w2).
Proof.
  intros H1 H2. unfold authorizePayment, getPaymentStatus, try_catch, bind.
  rewrite (retrievePayment_found _ _ _ _ H1). cbn [read ret].
  rewrite (retrievePayment_found sd (after env _ w1) o2 w2 H2).
  by rewrite after_after.
Qed.

(** X9: when the first [getOrder] of [authorizePayment] fails, the
    normalized error it returns describes the TypeError of reading [status]
    of [undefined], not the failure of the remote call, and no second call is
    made. *)
Theorem authorizePayment_first_retrieval_fails sd env e w1 :
  PaypalSdk.getOrder paypal_ (order_id sd) (world env) = (inl e, w1) ->
  authorizePayment sd env
  = (Returns
       (IsError
          {| error := "An error occurred in authorizePayment";
             code := Some "unknown";
             detail :=
               Some "Cannot read properties of undefined (reading 'status')" |}),
     after env [getOrder_call (order_id sd)] w1).
Proof.
  intros H1. unfold authorizePayment, getPaymentStatus, try_catch, bind.
  by rewrite (retrievePayment_failed _ _ _ _ H1).
Qed.

(** X10: when the first [getOrder] of [authorizePayment] succeeds and the
    second fails, no error is reported: the result is a success whose data is
    [undefined], with the status of the first answer. *)
Theorem authorizePayment_second_retrieval_fails sd env o1 w1 e w2 :
  PaypalSdk.getOrder paypal_ (order_id sd) (world env) = (inr o1, w1) ->
  PaypalSdk.getOrder paypal_ (order_id sd) w1 = (inl e, w2) ->
  authorizePayment sd env
  = (Returns (IsData {| auth_data := None;
                        auth_status := status_of (status o1) |}),
     after env [getOrder_call (order_id sd); getOrder_call (order_id sd)] w2).
Proof.
  intros H1 H2. unfold authorizePayment, getPaymentStatus, try_catch, bind.
  rewrite (retrievePayment_found _ _ _ _ H1). cbn [read ret].
  rewrite (retrievePayment_failed sd (after env _ w1) e w2 H2).
  by rewrite after_after.
Qed.

(** *** [capturePayment] *)

(** X11: with an authorization in the first purchase unit, [capturePayment]
    sends one capture call for that unit's first authorization id, without
    retrieving the order first and whatever the captures already listed; if
    the call succeeds the order is retrieved and the outcome of the retrieval
    returned, and if it fails a normalized error is returned and nothing is
    retrieved. *)
Theorem capturePayment_captures_first_authorization sd env pu rest a auths :
  purchase_units sd = pu :: rest ->
  authorizations (payments pu) = a :: auths ->
  let capture_call := captureAuthorizedPayment_call (pay_id a) in
  (forall w1,
      PaypalSdk.captureAuthorizedPayment paypal_ (pay_id a) (world env)
      = (inr tt, w1) ->
      capturePayment sd env
      = let '(r, w2) := PaypalSdk.getOrder paypal_ (order_id sd) w1 in
        (Returns (IsData (answer_of r)),
         after env [capture_call; getOrder_call (order_id sd)] w2))
  /\ (forall e w1,
      PaypalSdk.captureAuthorizedPayment paypal_ (pay_id a) (world env)
      = (inl e, w1) ->
      capturePayment sd env
      = (Returns
           (IsError (buildError "an error occurred in capturePayment" e)),
         after env [capture_call] w1)).
Proof.
  intros Hpu Ha capture_call. split.
  - intros w1 Hc. unfold capturePayment, first_authorization_id.
    unfold try_catch, bind, read, await, ret. rewrite Hpu. cbn.
    rewrite Ha. cbn. rewrite Hc. rewrite retrievePayment_run. cbn.
    destruct (PaypalSdk.getOrder paypal_ (order_id sd) w1) as [r w2].
    unfold after; cbn. by rewrite <- !app_assoc.
  - intros e w1 Hc. unfold capturePayment, first_authorization_id.
    unfold try_catch, bind, read, await, ret. rewrite Hpu. cbn.
    rewrite Ha. cbn. by rewrite Hc.
Qed.

(** X12: [capturePayment] throws to its caller exactly when the session
    data has no purchase unit or its first purchase unit has no
    authorization; any failure past that point is returned as a normalized
    error. *)
Theorem capturePayment_throws_iff sd env :
  (exists e env', capturePayment sd env = (Throws e, env'))
  <-> (purchase_units sd = []
       \/ exists pu rest,
           purchase_units sd = pu :: rest /\ authorizations (payments pu) = []).
Proof.
  split.
  - intros (e & env' & H).
    destruct (purchase_units sd) as [| pu rest] eqn:Hpu; [by left |].
    destruct (authorizations (payments pu)) as [| a auths] eqn:Ha;
      [right; by eauto |].
    exfalso. unfold capturePayment, first_authorization_id in H.
    unfold bind at 1 2, read, ret in H. rewrite Hpu in H. cbn in H.
    rewrite Ha in H. cbn in H.
    match type of H with
    | try_catch ?body ?handler env = _ =>
        destruct (try_catch_returns body handler
                    (fun e => ret_returns _) env) as (a' & env'' & Hr)
    end.
    congruence.
  - intros [Hpu | (pu & rest & Hpu & Ha)].
    + exists (TypeError_undefined "payments"), env.
      by apply capturePayment_no_purchase_unit.
    + exists (TypeError_undefined "id"), env.
      by apply capturePayment_no_authorization with pu rest.
Qed.

(** *** [cancelPayment] *)

(** X13: when the remote [getOrder] call fails, [cancelPayment] throws the
    TypeError of reading [status] of [undefined] to its caller, outside its
    guarded block, and has sent neither a refund nor a void. *)
Theorem cancelPayment_throws_when_unretrieved sd env e w' :
  PaypalSdk.getOrder paypal_ (order_id sd) (world env) = (inl e, w') ->
  cancelPayment sd env
  = (Throws (TypeError_undefined "status"),
     after env [getOrder_call (order_id sd)] w').
Proof.
  intros H. unfold cancelPayment. unfold bind at 1.
  by rewrite (retrievePayment_failed _ _ _ _ H).
Qed.

(** X14: on every input and against every client, the calls of
    [cancelPayment] are the retrieval of the order followed by a prefix of
    "one refund or one void, then the retrieval again": it never sends more
    than one mutating call, never retries, and never patches, captures or
    creates. *)
Theorem cancelPayment_call_chain sd env :
  exists cs m,
    issued (cancelPayment sd env).2
    = issued env ++ getOrder_call (order_id sd) :: cs
    /\ (is_refund m = true \/ is_void m = true)
    /\ cs `prefix_of` [m; getOrder_call (order_id sd)].
Proof.
  unfold cancelPayment. unfold bind at 1. rewrite retrievePayment_run.
  destruct (PaypalSdk.getOrder paypal_ (order_id sd) (world env))
    as [[e | o] w1]; cbn [answer_of].
  { exists [], (refundPayment_call "" None). cbn.
    split; [reflexivity |]. split; [by left |]. by apply prefix_nil. }
  unfold read at 1 2, bind at 1 2, ret at 1 2.
  match goal with
  | |- context [if ?b then _ else _] => destruct b
  end.
  { exists [], (refundPayment_call "" None). cbn.
    split; [reflexivity |]. split; [by left |]. by apply prefix_nil. }
  unfold try_catch, bind, first_capture_id, first_authorization_id, read,
    await, ret, throw, bind.
  destruct (existsb has_captures (purchase_units sd)).
  - destruct (purchase_units sd) as [| pu rest]; cbn.
    { exists [], (refundPayment_call "" None).
      split; [reflexivity |]. split; [by left |]. by apply prefix_nil. }
    destruct (captures (payments pu)) as [[| c cs] |]; cbn;
      try (exists [], (refundPayment_call "" None);
           split; [reflexivity |]; split; [by left |]; by apply prefix_nil).
    destruct (PaypalSdk.refundPayment paypal_ (pay_id c) None w1)
      as [[e | []] w2]; cbn.
    + exists [refundPayment_call (pay_id c) None],
        (refundPayment_call (pay_id c) None).
      split; [by rewrite <- app_assoc |]. split; [by left |].
      by exists [getOrder_call (order_id sd)].
    + rewrite retrievePayment_run. cbn.
      destruct (PaypalSdk.getOrder paypal_ (order_id sd) w2) as [r w3]. cbn.
      exists [refundPayment_call (pay_id c) None; getOrder_call (order_id sd)],
        (refundPayment_call (pay_id c) None).
      split; [by rewrite <- !app_assoc |]. split; [by left | done].
  - destruct (purchase_units sd) as [| pu rest]; cbn.
    { exists [], (refundPayment_call "" None).
      split; [reflexivity |]. split; [by left |]. by apply prefix_nil. }
    destruct (authorizations (payments pu)) as [| a auths]; cbn.
    { exists [], (refundPayment_call "" None).
      split; [reflexivity |]. split; [by left |]. by apply prefix_nil. }
    destruct (PaypalSdk.cancelAuthorizedPayment paypal_ (pay_id a) w1)
      as [[e | []] w2]; cbn.
    + exists [cancelAuthorizedPayment_call (pay_id a)],
        (cancelAuthorizedPayment_call (pay_id a)).
      split; [by rewrite <- app_assoc |]. split; [by right |].
      by exists [getOrder_call (order_id sd)].
    + rewrite retrievePayment_run. cbn.
      destruct (PaypalSdk.getOrder paypal_ (order_id sd) w2) as [r w3]. cbn.
      exists [cancelAuthorizedPayment_call (pay_id a);
              getOrder_call (order_id sd)],
        (cancelAuthorizedPayment_call (pay_id a)).
      split; [by rewrite <- !app_assoc |]. split; [by right | done].
Qed.

(** *** [initiatePayment] and [updatePayment] *)

(** X15: given a context and an amount that formats, [initiatePayment]
    sends exactly one call, a [createOrder] whose single purchase unit carries
    the session id and the formatted amount and whose intent is CAPTURE when
    the [capture] option is true and AUTHORIZE otherwise; it returns the
    created order as its data, or the normalized error of the creation. *)
Theorem initiatePayment_creates_one_order input env ctx m :
  create_context input = Some ctx ->
  convertAmount BigNumberInput toFixed (create_amount input)
    (create_currency_code input) = inr m ->
  let body :=
    {| intent := if bool_decide (capture options_ = Some true)
                 then CAPTURE else AUTHORIZE;
       co_purchase_units :=
         [ {| cu_custom_id := session_id ctx; cu_amount := m |} ] |} in
  initiatePayment input env
  = match PaypalSdk.createOrder paypal_ body (world env) with
    | (inr o, w') =>
        (Returns (IsData {| response_data := o |}),
         after env [createOrder_call body] w')
    | (inl e, w') =>
        (Returns (IsError (buildError initiate_message e)),
         after env [createOrder_call body] w')
    end.
Proof.
  intros Hc Hm body.
  assert (Hbody : order_request (session_id ctx) m = body).
  { unfold order_request, body.
    by destruct (capture options_) as [[] |]. }
  destruct (PaypalSdk.createOrder paypal_ body (world env)) as [[e | o] w']
    eqn:Ho; rewrite <- Hbody in *.
  - by apply initiatePayment_rejected.
  - by apply initiatePayment_created.
Qed.

(** X16: when the new amount does not format (unsupported currency,
    rendering error, over-long value), [updatePayment] sends nothing, neither
    the patch nor a creation: with a context it returns the formatting error
    under the message of [initiatePayment], and without one under its own
    message. *)
Theorem updatePayment_unformattable input env e :
  convertAmount BigNumberInput toFixed (update_amount input)
    (update_currency_code input) = inl e ->
  updatePayment input env
  = (Returns
       (IsError
          (buildError
             (match update_context input with
              | Some _ => initiate_message
              | None => "An error occurred in updatePayment"
              end) e)),
     env).
Proof.
  intros Hm. unfold updatePayment.
  unfold try_catch at 1. unfold bind at 1. unfold lift at 1. rewrite Hm.
  unfold throw at 1. unfold try_catch.
  destruct (update_context input) as [ctx |] eqn:Hc.
  - by rewrite (initiatePayment_unformattable (as_create input) env ctx e).
  - by rewrite (initiatePayment_no_context (as_create input) env).
Qed.

(** X17: when the patch is refused and the creation of the fallback is
    refused too, [updatePayment] returns the normalized error of the
    creation, under the message of [initiatePayment]; the error of the patch
    is not reported. *)
Theorem updatePayment_both_refused input env ctx m e1 w1 e2 w2 :
  update_context input = Some ctx ->
  convertAmount BigNumberInput toFixed (update_amount input)
    (update_currency_code input) = inr m ->
  PaypalSdk.patchOrder paypal_ (order_id (update_data input)) (amount_patch m)
    (world env) = (inl e1, w1) ->
  PaypalSdk.createOrder paypal_ (order_request (session_id ctx) m) w1
  = (inl e2, w2) ->
  updatePayment input env
  = (Returns (IsError (buildError initiate_message e2)),
     after env
       [ patchOrder_call (order_id (update_data input)) (amount_patch m);
         createOrder_call (order_request (session_id ctx) m) ] w2).
Proof.
  intros Hc Hm Hp Ho. rewrite (updatePayment_falls_back _ _ _ _ _ Hm Hp).
  unfold try_catch.
  rewrite (initiatePayment_rejected (as_create input) _ ctx m e2 w2);
    [| done | done | done].
  by rewrite after_after.
Qed.

(** *** Operations that never throw *)

(** X18: whatever the input and the client, [retrievePayment],
    [authorizePayment], [refundPayment], [updatePayment], [updatePaymentData]
    and [deletePayment] complete normally: none of them throws to its
    caller. *)
Theorem lifecycle_methods_that_never_throw :
  (forall sd, returns (retrievePayment sd))
  /\ (forall sd, returns (authorizePayment sd))
  /\ (forall sd refundAmount, returns (refundPayment sd refundAmount))
  /\ (forall input, returns (updatePayment input))
  /\ (forall sessionId data, returns (updatePaymentData sessionId data))
  /\ (forall sd, returns (deletePayment sd)).
Proof.
  repeat split.
  - apply retrievePayment_normalizes.
  - apply authorizePayment_normalizes.
  - apply refundPayment_normalizes.
  - apply updatePayment_normalizes.
  - apply updatePaymentData_normalizes.
  - apply deletePayment_normalizes.
Qed.

(** *** [getWebhookActionAndData] *)

(** X19: whatever the payload, a result of [getWebhookActionAndData] is the
    NOT_SUPPORTED action without data, and no call has been sent: the event it
    switches on is the constant "unknown". *)
Theorem getWebhookActionAndData_not_supported data env r env' :
  getWebhookActionAndData data env = (Returns r, env') ->
  r = {| action := ACTION_NOT_SUPPORTED; action_data := None |} /\ env' = env.
Proof.
  unfold getWebhookActionAndData, first_capture_id, first_authorization_id.
  unfold bind, read, ret, throw.
  destruct (purchase_units data) as [| pu rest]; cbn; [discriminate |].
  destruct (captures (payments pu)) as [[| c cs] |]; cbn; try discriminate.
  destruct (authorizations (payments pu)) as [| a auths]; cbn;
    [discriminate |].
  intros H. by injection H as <- <-.
Qed.

(** X20: [getWebhookActionAndData] returns exactly when the first purchase
    unit of the payload has both a capture and an authorization; for every
    other payload (no purchase unit, an order authorized but not captured, an
    order captured without authorization) it throws a TypeError. *)
Theorem getWebhookActionAndData_returns_iff data env :
  (exists r env', getWebhookActionAndData data env = (Returns r, env'))
  <-> (exists pu rest c cs a auths,
          purchase_units data = pu :: rest
          /\ captures (payments pu) = Some (c :: cs)
          /\ authorizations (payments pu) = a :: auths).
Proof.
  unfold getWebhookActionAndData, first_capture_id, first_authorization_id.
  unfold bind, read, ret, throw.
  split.
  - intros (r & env' & H).
    destruct (purchase_units data) as [| pu rest]; cbn in H; [discriminate |].
    destruct (captures (payments pu)) as [[| c cs] |] eqn:Hcap; cbn in H;
      try discriminate.
    destruct (authorizations (payments pu)) as [| a auths] eqn:Ha; cbn in H;
      [discriminate |].
    by exists pu, rest, c, cs, a, auths.
  - intros (pu & rest & c & cs & a & auths & -> & Hcap & Ha). cbn.
    rewrite Hcap. cbn. rewrite Ha. cbn. by eauto.
Qed.

(** *** [retrieveOrderFromAuth] *)

Lemma split_nonempty sep s : split sep s <> [].
Proof.
  destruct s as [| c s]; cbn; [done |].
  destruct (Ascii.eqb c sep); [done |]. by destruct (split sep s).
Qed.

Lemma split_without_separator sep s :
  occurs sep s = false -> split sep s = [s].
Proof.
  induction s as [| c s IH]; cbn; [done |].
  intros H. apply orb_false_iff in H as [Hc Hs].
  rewrite Hc. by rewrite (IH Hs).
Qed.

Lemma split_at_separator sep pre rest :
  split sep (String.append pre (String sep rest)) = split sep pre ++ split sep rest.
Proof.
  induction pre as [| c pre IH].
  - change (String.append "" (String sep rest)) with (String sep rest).
    cbn. by rewrite Ascii.eqb_refl.
  - change (String.append (String c pre) (String sep rest))
      with (String c (String.append pre (String sep rest))).
    cbn. rewrite IH. destruct (Ascii.eqb c sep); [done |].
    pose proof (split_nonempty sep pre) as Hne.
    by destruct (split sep pre).
Qed.

Lemma lookup_last {A} (l : list A) (x : A) :
  (l ++ [x]) !! (length (l ++ [x]) - 1) = Some x.
Proof.
  rewrite length_app. cbn.
  replace (length l + 1 - 1) with (length l) by lia.
  by rewrite list_lookup_middle.
Qed.

(** The last part of [pre/seg] is [seg] when [seg] holds no slash. *)
Lemma split_last_segment pre seg :
  occurs "/" seg = false ->
  split "/" (String.append pre (String "/" seg))
  !! (length (split "/" (String.append pre (String "/" seg))) - 1)
  = Some seg.
Proof.
  intros H. rewrite split_at_separator, (split_without_separator _ _ H).
  apply lookup_last.
Qed.

(** X21: when the "up" link of the authorization has an href of the form
    [pre/seg], with [seg] non-empty and free of slashes, the order fetched
    by [retrieveOrderFromAuth] is [seg], in one [getOrder] call; the order is
    returned as it comes, and a failure of the call is thrown to the caller as
    it is, not normalized. *)
Theorem retrieveOrderFromAuth_fetches_last_segment
    authorization env l pre c seg :
  find is_up (links authorization) = Some l ->
  href l = Some (String.append pre (String "/" (String c seg))) ->
  occurs "/" (String c seg) = false ->
  retrieveOrderFromAuth authorization env
  = match PaypalSdk.getOrder paypal_ (String c seg) (world env) with
    | (inr o, w') =>
        (Returns (Some o), after env [getOrder_call (String c seg)] w')
    | (inl e, w') =>
        (Throws e, after env [getOrder_call (String c seg)] w')
    end.
Proof.
  intros Hl Hh Hs.
  apply retrieveOrderFromAuth_up_link
    with l (String.append pre (String "/" (String c seg))); [done | done |].
  by apply split_last_segment.
Qed.

(** X22: when the href of the "up" link is empty or ends with a slash,
    [retrieveOrderFromAuth] returns null and sends no call. *)
Theorem retrieveOrderFromAuth_null_on_empty_segment authorization env l h :
  find is_up (links authorization) = Some l ->
  href l = Some h ->
  h = "" \/ (exists pre, h = String.append pre "/") ->
  retrieveOrderFromAuth authorization env = (Returns None, env).
Proof.
  intros Hl Hh Hempty.
  apply retrieveOrderFromAuth_trailing_slash with l h; [done | done |].
  destruct Hempty as [-> | [pre ->]]; [reflexivity |].
  by apply (split_last_segment pre "").
Qed.

(** X23: only the first link with relation "up" counts: the links before
    it and every link after it, "up" or not, do not change what
    [retrieveOrderFromAuth] does. *)
Theorem retrieveOrderFromAuth_first_up_link before l rest env :
  Forall (fun x => is_up x = false) before ->
  is_up l = true ->
  retrieveOrderFromAuth {| links := before ++ l :: rest |} env
  = retrieveOrderFromAuth {| links := [l] |} env.
Proof.
  intros Hb Hl. unfold retrieveOrderFromAuth. cbn [links].
  assert (Hfind : find is_up (before ++ l :: rest) = Some l).
  { induction Hb as [| x before Hx Hb IH]; cbn.
    - by rewrite Hl.
    - by rewrite Hx. }
  rewrite Hfind. cbn. by rewrite Hl.
Qed.

(** *** [updatePaymentData] and [verifyWebhook] *)

(** X24: [updatePaymentData] rejects a payload exactly when the value
    under [amount] is truthy, with a normalized error whose detail is the
    message of the MedusaError and whose code is [undefined]; every other
    payload is returned as it is.  Either way no call is sent. *)
Theorem updatePaymentData_rejects_truthy_amount sessionId
    (data : gmap string JsVal) env :
  updatePaymentData sessionId data env
  = (Returns
       (if truthy (default VUndefined (data !! "amount"))
        then IsError
               {| error := "An error occurred in updatePaymentData";
                  code := None;
                  detail :=
                    Some "Cannot update amount, use updatePayment instead" |}
        else IsData data),
     env).
Proof.
  unfold updatePaymentData. run_async.
  by destruct (truthy (default VUndefined (data !! "amount"))).
Qed.

(** X25: the webhook id sent for verification is the one the caller put
    in the payload whenever the payload has the key, even with the value
    [undefined]; otherwise it is the [auth_webhook_id] option when that is a
    non-empty string, and the [authWebhookId] option if not. *)
Theorem verifyWebhook_request_webhook_id options (data : gmap string JsVal) :
  (forall v, data !! "webhook_id" = Some v ->
             verifyWebhook_request options data !! "webhook_id" = Some v)
  /\ (data !! "webhook_id" = None ->
      verifyWebhook_request options data !! "webhook_id"
      = Some (js_of_string
                (match auth_webhook_id options with
                 | Some (String c s) => Some (String c s)
                 | _ => authWebhookId options
                 end))).
Proof.
  unfold verifyWebhook_request. split.
  - intros v Hv. by apply lookup_union_Some_l.
  - intros Hn. rewrite lookup_union_r by done.
    rewrite lookup_singleton_eq. f_equal. f_equal.
    by destruct (auth_webhook_id options) as [[| c s] |].
Qed.

(** X26: every field of the payload other than [webhook_id] reaches the
    client unchanged, and the request holds no field besides those of the
    payload and [webhook_id]. *)
Theorem verifyWebhook_request_passes_fields options
    (data : gmap string JsVal) k :
  k <> "webhook_id" ->
  verifyWebhook_request options data !! k = data !! k.
Proof.
  intros Hk. unfold verifyWebhook_request.
  destruct (data !! k) as [v |] eqn:Hv.
  - by apply lookup_union_Some_l.
  - rewrite lookup_union_r by done. by apply lookup_singleton_ne.
Qed.

(** *** [validateOptions] *)

(** X28: [validateOptions] accepts the options exactly when both
    [clientId] and [clientSecret] are given (an empty string is accepted);
    when [clientId] is missing it is the one reported, also when the secret
    is missing as well. *)
Theorem validateOptions_accepts_iff options :
  (validateOptions options = inr tt
   <-> is_Some (clientId options) /\ is_Some (clientSecret options))
  /\ (clientId options = None ->
      validateOptions options
      = inl (Error "Required option `clientId` is missing in PayPal plugin")).
Proof.
  unfold validateOptions.
  destruct (clientId options) as [i |], (clientSecret options) as [sec |];
    (split; [split |]); try done.
  - by intros [_ [? ?]].
  - by intros [[? ?] _].
  - by intros [[? ?] _].
Qed.

(** *** What the operations send *)

(** X29: [retrievePayment], [getPaymentStatus], [authorizePayment] and
    [retrieveOrderFromAuth] only read: on every input and against every
    client the calls they add to the log are [getOrder] calls, at most one
    (two for [authorizePayment]), and never a mutating call. *)
Theorem reading_operations_only_read :
  (forall sd,
      logs (fun cs => Forall is_getOrder cs /\ length cs <= 1)
        (retrievePayment sd))
  /\ (forall sd,
      logs (fun cs => Forall is_getOrder cs /\ length cs <= 1)
        (getPaymentStatus sd))
  /\ (forall sd,
      logs (fun cs => Forall is_getOrder cs /\ length cs <= 2)
        (authorizePayment sd))
  /\ (forall authorization,
      logs (fun cs => Forall is_getOrder cs /\ length cs <= 1)
        (retrieveOrderFromAuth authorization)).
Proof.
  split; [| split; [| split]].
  - intros sd env. rewrite retrievePayment_run.
    destruct (PaypalSdk.getOrder paypal_ (order_id sd) (world env)) as [r w'].
    exists [getOrder_call (order_id sd)].
    split; [reflexivity |]. split; [by repeat constructor | cbn; lia].
  - intros sd env. unfold getPaymentStatus, bind.
    rewrite retrievePayment_run.
    destruct (PaypalSdk.getOrder paypal_ (order_id sd) (world env))
      as [[e | o] w'];
      exists [getOrder_call (order_id sd)];
      (split; [reflexivity |]; split; [by repeat constructor | cbn; lia]).
  - intros sd env. unfold authorizePayment, getPaymentStatus, try_catch, bind.
    rewrite retrievePayment_run.
    destruct (PaypalSdk.getOrder paypal_ (order_id sd) (world env))
      as [[e | o] w1]; cbn.
    + exists [getOrder_call (order_id sd)].
      split; [reflexivity |]. split; [by repeat constructor | cbn; lia].
    + rewrite retrievePayment_run. cbn.
      destruct (PaypalSdk.getOrder paypal_ (order_id sd) w1) as [r w2]. cbn.
      exists [getOrder_call (order_id sd); getOrder_call (order_id sd)].
      split; [by rewrite <- app_assoc |].
      split; [by repeat constructor | cbn; lia].
  - intros authorization env. unfold retrieveOrderFromAuth.
    unfold bind, read, await, ret, throw.
    destruct (find is_up (links authorization)) as [l |]; cbn;
      [| exists []; split; [by rewrite app_nil_r | split; [constructor | cbn; lia]]].
    destruct (href l) as [h |]; cbn; [| exists []; split; [by rewrite app_nil_r | split; [constructor | cbn; lia]]].
    destruct (split "/" h !! (length (split "/" h) - 1)) as [[| c seg] |];
      cbn; try (exists []; split; [by rewrite app_nil_r | split; [constructor | cbn; lia]]).
    destruct (PaypalSdk.getOrder paypal_ (String c seg) (world env))
      as [[e | o] w'];
      exists [getOrder_call (String c seg)];
      (split; [reflexivity |]; split; [by repeat constructor | cbn; lia]).
Qed.

(** X30: [capturePayment] and [refundPayment] never retrieve the order
    before acting: on every input and against every client their calls are a
    prefix of "one capture (one refund), then one [getOrder]"; the calls of
    [updatePayment] are a prefix of "one patch, then one creation", and it
    never retrieves the order. *)
Theorem mutating_operations_call_chains :
  (forall sd env, exists cs id,
      issued (capturePayment sd env).2 = issued env ++ cs
      /\ cs `prefix_of` [captureAuthorizedPayment_call id;
                          getOrder_call (order_id sd)])
  /\ (forall sd refundAmount env, exists cs id body,
      issued (refundPayment sd refundAmount env).2 = issued env ++ cs
      /\ cs `prefix_of` [refundPayment_call id (Some body);
                          getOrder_call (order_id sd)])
  /\ (forall input env, exists cs ops body,
      issued (updatePayment input env).2 = issued env ++ cs
      /\ cs `prefix_of` [patchOrder_call (order_id (update_data input)) ops;
                          createOrder_call body]).
Proof.
  split; [| split].
  - intros sd env. unfold capturePayment, first_authorization_id.
    unfold try_catch, bind, read, await, ret, throw.
    destruct (purchase_units sd) as [| pu rest]; cbn.
    { exists [], "". split; [by rewrite app_nil_r | by apply prefix_nil]. }
    destruct (authorizations (payments pu)) as [| a auths]; cbn.
    { exists [], "". split; [by rewrite app_nil_r | by apply prefix_nil]. }
    destruct (PaypalSdk.captureAuthorizedPayment paypal_ (pay_id a) (world env))
      as [[e | []] w1]; cbn.
    + exists [captureAuthorizedPayment_call (pay_id a)], (pay_id a).
      split; [reflexivity | by exists [getOrder_call (order_id sd)]].
    + rewrite retrievePayment_run. cbn.
      destruct (PaypalSdk.getOrder paypal_ (order_id sd) w1) as [r w2]. cbn.
      exists [captureAuthorizedPayment_call (pay_id a);
              getOrder_call (order_id sd)], (pay_id a).
      split; [by rewrite <- app_assoc | done].
  - intros sd refundAmount env.
    pose (nobody := {| refund_amount := {| value := ""; currency_code := "" |} |}).
    unfold refundPayment, first_capture_id.
    unfold try_catch, bind, read, lift, await, ret, throw, bind.
    destruct (purchase_units sd) as [| pu rest] eqn:Hpu; cbn.
    { exists [], "", nobody.
      split; [by rewrite app_nil_r | by apply prefix_nil]. }
    destruct (has_captures pu || existsb has_captures rest); cbn;
      [| exists [], "", nobody;
         split; [by rewrite app_nil_r | by apply prefix_nil]].
    destruct (captures (payments pu)) as [[| c cs] |]; cbn;
      try (exists [], "", nobody;
           split; [by rewrite app_nil_r | by apply prefix_nil]).
    destruct (convertAmount BigNumberInput toFixed refundAmount
                (currency_code (pu_amount pu))) as [e | m]; cbn.
    { exists [], "", nobody.
      split; [by rewrite app_nil_r | by apply prefix_nil]. }
    destruct (PaypalSdk.refundPayment paypal_ (pay_id c)
                (Some {| refund_amount := m |}) (world env))
      as [[e | []] w1]; cbn.
    + exists [refundPayment_call (pay_id c) (Some {| refund_amount := m |})],
        (pay_id c), {| refund_amount := m |}.
      split; [reflexivity | by exists [getOrder_call (order_id sd)]].
    + rewrite retrievePayment_run. cbn.
      destruct (PaypalSdk.getOrder paypal_ (order_id sd) w1) as [r w2]. cbn.
      exists [refundPayment_call (pay_id c) (Some {| refund_amount := m |});
              getOrder_call (order_id sd)],
        (pay_id c), {| refund_amount := m |}.
      split; [by rewrite <- app_assoc | done].
  - intros input env.
    pose (nothing := {| intent := AUTHORIZE; co_purchase_units := [] |}).
    unfold updatePayment, initiatePayment, as_create.
    unfold try_catch, bind, lift, await, ret, throw. cbn.
    destruct (convertAmount BigNumberInput toFixed (update_amount input)
                (update_currency_code input)) as [e | m]; cbn.
    { destruct (update_context input); cbn;
        exists [], [], nothing;
        (split; [by rewrite app_nil_r | by apply prefix_nil]). }
    destruct (PaypalSdk.patchOrder paypal_ (order_id (update_data input))
                (amount_patch m) (world env)) as [[e | []] w1]; cbn.
    + destruct (update_context input) as [ctx |]; cbn.
      * destruct (PaypalSdk.createOrder paypal_
                    (order_request (session_id ctx) m) w1) as [[e' | o] w2];
          cbn;
          exists [patchOrder_call (order_id (update_data input))
                    (amount_patch m);
                  createOrder_call (order_request (session_id ctx) m)],
            (amount_patch m), (order_request (session_id ctx) m);
          (split; [by rewrite <- app_assoc | done]).
      * exists [patchOrder_call (order_id (update_data input)) (amount_patch m)],
          (amount_patch m), nothing.
        split; [reflexivity | by exists [createOrder_call nothing]].
    + exists [patchOrder_call (order_id (update_data input)) (amount_patch m)],
        (amount_patch m), nothing.
      split; [reflexivity | by exists [createOrder_call nothing]].
Qed.

(** *** The normalized errors *)

Lemma yields_data_ret {B} (b : B) : yields_data (ret (IsData b)).
Proof. intros env r env' H. injection H as <- _. by exists b. Qed.

Lemma yields_data_bind {A B} (m : Async World A)
    (k : A -> Async World (ErrorOr B)) :
  (forall a, yields_data (k a)) -> yields_data (bind m k).
Proof.
  intros Hk env r env' H. unfold bind in H.
  destruct (m env) as [[a | e] env1]; [| discriminate].
  by apply (Hk a env1 r env').
Qed.

(** An error object returned by a guarded block whose body yields data
    comes from the handler. *)
Lemma try_catch_error_message {B} (body : Async World (ErrorOr B)) message
    env e env' :
  yields_data body ->
  try_catch body (fun error => ret (IsError (buildError message error))) env
  = (Returns (IsError e), env') ->
  error e = message.
Proof.
  intros Hbody H. unfold try_catch in H.
  destruct (body env) as [[r | thrown] env1] eqn:Hrun.
  - destruct (Hbody _ _ _ Hrun) as [b ->]. discriminate.
  - by injection H as <- _.
Qed.

(** X27: an error object returned by a lifecycle method names that method
    in its [error] field, whatever failed inside: each of [authorizePayment],
    [cancelPayment], [capturePayment], [refundPayment], [updatePaymentData]
    and [initiatePayment] has its one message, and [updatePayment] answers
    with its own message or with the one of [initiatePayment]. *)
Theorem errors_name_their_operation :
  (forall sd env e env',
      authorizePayment sd env = (Returns (IsError e), env') ->
      error e = "An error occurred in authorizePayment")
  /\ (forall sd env e env',
      cancelPayment sd env = (Returns (IsError e), env') ->
      error e = "An error occurred in cancelPayment")
  /\ (forall sd env e env',
      capturePayment sd env = (Returns (IsError e), env') ->
      error e = "an error occurred in capturePayment")
  /\ (forall sd refundAmount env e env',
      refundPayment sd refundAmount env = (Returns (IsError e), env') ->
      error e = "An error occurred in refundPayment")
  /\ (forall sessionId data env e env',
      updatePaymentData sessionId data env = (Returns (IsError e), env') ->
      error e = "An error occurred in updatePaymentData")
  /\ (forall input env e env',
      initiatePayment input env = (Returns (IsError e), env') ->
      error e = initiate_message)
  /\ (forall input env e env',
      updatePayment input env = (Returns (IsError e), env') ->
      error e = initiate_message
      \/ error e = "An error occurred in updatePayment").
Proof.
  assert (Hinit : forall input env e env',
             initiatePayment input env = (Returns (IsError e), env') ->
             error e = initiate_message).
  { intros input env e env' H. unfold initiatePayment in H.
    unfold bind at 1 in H.
    destruct (create_context input) as [ctx |]; [| discriminate].
    unfold ret at 1 in H.
    apply try_catch_error_message in H; [done |].
    apply yields_data_bind; intros m.
    apply yields_data_bind; intros o. apply yields_data_ret. }
  repeat split.
  - intros sd env e env' H. unfold authorizePayment in H.
    apply try_catch_error_message in H; [done |].
    apply yields_data_bind; intros st.
    apply yields_data_bind; intros d. apply yields_data_ret.
  - intros sd env e env' H. unfold cancelPayment in H.
    unfold bind at 1 in H. rewrite retrievePayment_run in H.
    destruct (PaypalSdk.getOrder paypal_ (order_id sd) (world env))
      as [[e0 | o] w1]; cbn [answer_of] in H; [discriminate |].
    unfold read at 1 2, bind at 1 2, ret at 1 2 in H.
    match type of H with
    | context [if ?b then _ else _] => destruct b
    end; [discriminate |].
    apply try_catch_error_message in H; [done |].
    apply yields_data_bind; intros u.
    apply yields_data_bind; intros d. apply yields_data_ret.
  - intros sd env e env' H. unfold capturePayment in H.
    unfold bind at 1 in H.
    destruct (read (purchase_units sd !! 0) "payments" payments env)
      as [[p | e0] env1]; [| discriminate].
    unfold bind at 1 in H.
    destruct (first_authorization_id p env1) as [[a | e0] env2];
      [| discriminate].
    apply try_catch_error_message in H; [done |].
    apply yields_data_bind; intros u.
    apply yields_data_bind; intros d. apply yields_data_ret.
  - intros sd refundAmount env e env' H. unfold refundPayment in H.
    apply try_catch_error_message in H; [done |].
    repeat (apply yields_data_bind; intros ?). apply yields_data_ret.
  - intros sessionId data env e env' H. unfold updatePaymentData in H.
    apply try_catch_error_message in H; [done |].
    apply yields_data_bind; intros u. apply yields_data_ret.
  - exact Hinit.
  - intros input env e env' H. unfold updatePayment in H.
    unfold try_catch at 1 in H.
    match type of H with
    | context [match ?body env with _ => _ end] =>
        destruct (body env) as [[r | thrown] env1] eqn:Hrun
    end.
    + exfalso.
      assert (Hdata : exists b, r = IsData b).
      { revert Hrun. apply yields_data_bind; intros m.
        apply yields_data_bind; intros u. apply yields_data_ret. }
      destruct Hdata as [b ->]. discriminate.
    + unfold try_catch in H.
      destruct (initiatePayment (as_create input) env1)
        as [[r | thrown'] env2] eqn:Hi.
      * injection H as -> _. left. by apply (Hinit _ _ _ _ Hi).
      * injection H as <- _. by right.
Qed.
End PayPalBase.

(** ** The adapter against the scripted client *)

Lemma retrievePayment_swallows_failure_witness :
  retrievePayment Mock.EOL Mock.sdk Mock.authorized_order (Mock.start [])
  = (Returns None, {| world := []; issued := [getOrder_call "O-1"] |}).
Proof.
  apply (retrievePayment_swallows_failure Mock.EOL Mock.sdk
           Mock.authorized_order (Mock.start []) Mock.hang_up []).
  reflexivity.
Defined.

Lemma getPaymentStatus_table_witness :
  getPaymentStatus Mock.EOL Mock.sdk Mock.authorized_order
    (Mock.start [Mock.Order Mock.authorized_order])
  = (Returns REQUIRES_MORE, {| world := []; issued := [getOrder_call "O-1"] |}).
Proof.
  destruct (getPaymentStatus_table Mock.EOL Mock.sdk Mock.authorized_order
              (Mock.start [Mock.Order Mock.authorized_order])
              Mock.authorized_order [] eq_refl)
    as (s & Hrun & _ & Hmore & _).
  rewrite Hrun. rewrite Hmore; [reflexivity |].
  right; left; reflexivity.
Defined.

Lemma cancelPayment_short_circuit_witness :
  cancelPayment Mock.EOL Mock.sdk Mock.authorized_order
    (Mock.start [Mock.Order Mock.voided_order; Mock.Done])
  = (Returns (IsData (Some Mock.voided_order)),
     {| world := [Mock.Done]; issued := [getOrder_call "O-1"] |}).
Proof.
  apply (cancelPayment_short_circuit Mock.EOL Mock.sdk Mock.authorized_order
           (Mock.start [Mock.Order Mock.voided_order; Mock.Done])
           Mock.voided_order [Mock.Done] eq_refl (or_introl eq_refl)).
Defined.

Lemma updatePayment_patched_returns_input_witness :
  updatePayment Mock.EOL Z Mock.toFixed Mock.options Mock.sdk
    (Mock.update_input (Some {| session_id := Some "s1" |}))
    (Mock.start [Mock.Done; Mock.Order Mock.captured_order])
  = (Returns (IsData {| response_data := Mock.authorized_order |}),
     {| world := [Mock.Order Mock.captured_order];
        issued := [patchOrder_call "O-1" (amount_patch Mock.usd_25)] |}).
Proof.
  apply (updatePayment_patched_returns_input Mock.EOL Z Mock.toFixed
           Mock.options Mock.sdk
           (Mock.update_input (Some {| session_id := Some "s1" |}))
           (Mock.start [Mock.Done; Mock.Order Mock.captured_order])
           Mock.usd_25 [Mock.Order Mock.captured_order]).
  - vm_compute. reflexivity.
  - reflexivity.
Defined.

(** The patch is refused and the caller left the context out: the fallback
    throws, and the answer carries the patch error. *)
Lemma updatePayment_patch_failure_falls_back_witness :
  updatePayment Mock.EOL Z Mock.toFixed Mock.options Mock.sdk
    (Mock.update_input None)
    (Mock.start [Mock.Fail (Error "ORDER_ALREADY_APPROVED")])
  = (Returns
       (IsError {| error := "An error occurred in updatePayment";
                   code := Some "unknown";
                   detail := Some "ORDER_ALREADY_APPROVED" |}),
     {| world := [];
        issued := [patchOrder_call "O-1" (amount_patch Mock.usd_25)] |}).
Proof.
  apply (updatePayment_patch_failure_falls_back Mock.EOL Z Mock.toFixed
           Mock.options Mock.sdk (Mock.update_input None)
           (Mock.start [Mock.Fail (Error "ORDER_ALREADY_APPROVED")])
           Mock.usd_25 (Error "ORDER_ALREADY_APPROVED") []).
  - vm_compute. reflexivity.
  - reflexivity.
  - reflexivity.
Defined.

(** The patch is refused, the fallback creates a new order. *)
Example updatePayment_creates_new_order :
  updatePayment Mock.EOL Z Mock.toFixed Mock.options Mock.sdk
    (Mock.update_input (Some {| session_id := Some "s1" |}))
    (Mock.start [Mock.Fail (Error "ORDER_ALREADY_APPROVED");
                 Mock.Order Mock.bare_order])
  = (Returns (IsData {| response_data := Mock.bare_order |}),
     {| world := [];
        issued :=
          [ patchOrder_call "O-1" (amount_patch Mock.usd_25);
            createOrder_call
              {| intent := AUTHORIZE;
                 co_purchase_units :=
                   [ {| cu_custom_id := Some "s1";
                        cu_amount := Mock.usd_25 |} ] |} ] |}).
Proof. vm_compute. reflexivity. Qed.

(** The patch is refused and so is the creation: the answer carries the
    error of the creation. *)
Example updatePayment_fallback_refused :
  updatePayment Mock.EOL Z Mock.toFixed Mock.options Mock.sdk
    (Mock.update_input (Some {| session_id := Some "s1" |}))
    (Mock.start [Mock.Fail (Error "ORDER_ALREADY_APPROVED");
                 Mock.Fail (Error "RATE_LIMIT_REACHED")])
  = (Returns
       (IsError {| error := initiate_message;
                   code := Some "unknown";
                   detail := Some "RATE_LIMIT_REACHED" |}),
     {| world := [];
        issued :=
          [ patchOrder_call "O-1" (amount_patch Mock.usd_25);
            createOrder_call
              (order_request Mock.options (Some "s1") Mock.usd_25) ] |}).
Proof. vm_compute. reflexivity. Qed.

(** *** [cancelPayment] *)

(** Where C4 as first stated fails.  A capture in the second purchase unit
    only: a unit has a capture, yet no refund call is issued.  A refund that
    the remote side refuses: the order is not retrieved again and an error is
    returned.  A purchase unit without authorization or capture: no void call
    is issued. *)
Lemma cancelPayment_counterexample :
  (existsb has_captures (purchase_units Mock.split_order) = true
   /\ cancelPayment Mock.EOL Mock.sdk Mock.split_order
        (Mock.start [Mock.Order Mock.split_order; Mock.Done;
                     Mock.Order Mock.split_order])
      = (Returns
           (IsError
              {| error := "An error occurred in cancelPayment";
                 code := Some "unknown";
                 detail :=
                   Some "Cannot read properties of undefined (reading 'id')" |}),
         {| world := [Mock.Done; Mock.Order Mock.split_order];
            issued := [getOrder_call "O-1"] |}))
  /\ (existsb has_captures (purchase_units Mock.captured_order) = true
      /\ cancelPayment Mock.EOL Mock.sdk Mock.captured_order
           (Mock.start [Mock.Order Mock.captured_order;
                        Mock.Fail (Error "CAPTURE_FULLY_REFUNDED");
                        Mock.Order Mock.captured_order])
         = (Returns
              (IsError
                 {| error := "An error occurred in cancelPayment";
                    code := Some "unknown";
                    detail := Some "CAPTURE_FULLY_REFUNDED" |}),
            {| world := [Mock.Order Mock.captured_order];
               issued := [getOrder_call "O-1";
                          refundPayment_call "C-1" None] |}))
  /\ (existsb has_captures (purchase_units Mock.bare_order) = false
      /\ cancelPayment Mock.EOL Mock.sdk Mock.bare_order
           (Mock.start [Mock.Order Mock.bare_order; Mock.Done;
                        Mock.Order Mock.bare_order])
         = (Returns
              (IsError
                 {| error := "An error occurred in cancelPayment";
                    code := Some "unknown";
                    detail :=
                      Some "Cannot read properties of undefined (reading 'id')" |}),
            {| world := [Mock.Done; Mock.Order Mock.bare_order];
               issued := [getOrder_call "O-1"] |})).
Proof. vm_compute. repeat split. Qed.

(** A captured order: one refund on the capture, then the fresh order. *)
Lemma cancelPayment_refunds_or_voids_witness :
  cancelPayment Mock.EOL Mock.sdk Mock.captured_order
    (Mock.start [Mock.Order Mock.captured_order; Mock.Done;
                 Mock.Order Mock.voided_order])
  = (Returns (IsData (Some Mock.voided_order)),
     {| world := [];
        issued := [getOrder_call "O-1"; refundPayment_call "C-1" None;
                   getOrder_call "O-1"] |}).
Proof.
  pose proof
    (cancelPayment_refunds_or_voids Mock.EOL Mock.sdk Mock.captured_order
       (Mock.start [Mock.Order Mock.captured_order; Mock.Done;
                    Mock.Order Mock.voided_order])
       Mock.captured_order [Mock.Done; Mock.Order Mock.voided_order]
       (Mock.unit_of ["A-1"] ["C-1"]) []
       eq_refl ltac:(discriminate) ltac:(intros _; left; reflexivity)
       eq_refl) as H.
  cbv zeta in H. destruct H as [Hcaptured _].
  destruct (Hcaptured (mkPaymentRef "C-1") [] eq_refl) as [Hok _].
  exact (Hok [Mock.Order Mock.voided_order] eq_refl).
Defined.

(** An authorized order: one void on the authorization. *)
Example cancelPayment_voids_authorization :
  cancelPayment Mock.EOL Mock.sdk Mock.authorized_order
    (Mock.start [Mock.Order Mock.authorized_order; Mock.Done;
                 Mock.Order Mock.voided_order])
  = (Returns (IsData (Some Mock.voided_order)),
     {| world := [];
        issued := [getOrder_call "O-1"; cancelAuthorizedPayment_call "A-1";
                   getOrder_call "O-1"] |}).
Proof. vm_compute. reflexivity. Qed.

(** *** [refundPayment] *)

(** Where C5 as first stated fails.  No purchase unit at all: the error
    returned is the runtime's, not the one of the uncaptured refund.  A
    capture in the second purchase unit only, or a currency the formatter does
    not know: a capture exists, yet no refund call is issued.  A refund that
    the remote side refuses: the order is not retrieved again. *)
Lemma refundPayment_counterexample :
  (existsb has_captures (purchase_units Mock.empty_order) = false
   /\ refundPayment Mock.EOL Z Mock.toFixed Mock.sdk Mock.empty_order 10%Z
        (Mock.start [Mock.Done; Mock.Order Mock.empty_order])
      = (Returns
           (IsError
              {| error := "An error occurred in refundPayment";
                 code := Some "unknown";
                 detail :=
                   Some "Cannot read properties of undefined (reading 'payments')" |}),
         Mock.start [Mock.Done; Mock.Order Mock.empty_order])
   /\ detail uncaptured_refund
      <> Some "Cannot read properties of undefined (reading 'payments')")
  /\ (existsb has_captures (purchase_units Mock.split_order) = true
      /\ refundPayment Mock.EOL Z Mock.toFixed Mock.sdk Mock.split_order 10%Z
           (Mock.start [Mock.Done; Mock.Order Mock.split_order])
         = (Returns
              (IsError
                 {| error := "An error occurred in refundPayment";
                    code := Some "unknown";
                    detail :=
                      Some "Cannot read properties of undefined (reading 'id')" |}),
            Mock.start [Mock.Done; Mock.Order Mock.split_order]))
  /\ (existsb has_captures (purchase_units Mock.foreign_order) = true
      /\ refundPayment Mock.EOL Z Mock.toFixed Mock.sdk Mock.foreign_order 10%Z
           (Mock.start [Mock.Done; Mock.Order Mock.foreign_order])
         = (Returns
              (IsError
                 {| error := "An error occurred in refundPayment";
                    code := Some "unknown";
                    detail := Some "Currency XYZ is not supported by Paypal" |}),
            Mock.start [Mock.Done; Mock.Order Mock.foreign_order]))
  /\ (existsb has_captures (purchase_units Mock.captured_order) = true
      /\ refundPayment Mock.EOL Z Mock.toFixed Mock.sdk Mock.captured_order 10%Z
           (Mock.start [Mock.Fail (Error "REFUND_AMOUNT_EXCEEDED");
                        Mock.Order Mock.captured_order])
         = (Returns
              (IsError
                 {| error := "An error occurred in refundPayment";
                    code := Some "unknown";
                    detail := Some "REFUND_AMOUNT_EXCEEDED" |}),
            {| world := [Mock.Order Mock.captured_order];
               issued :=
                 [ refundPayment_call "C-1"
                     (Some {| refund_amount :=
                                {| value := "10.00";
                                   currency_code := "USD" |} |}) ] |})).
Proof. vm_compute. repeat split. discriminate. Qed.

(** An authorized order cannot be refunded, and nothing is sent. *)
Lemma refundPayment_requires_capture_witness :
  refundPayment Mock.EOL Z Mock.toFixed Mock.sdk Mock.authorized_order 10%Z
    (Mock.start [Mock.Done])
  = (Returns (IsError uncaptured_refund), Mock.start [Mock.Done]).
Proof.
  apply (refundPayment_requires_capture Mock.EOL Z Mock.toFixed Mock.sdk
           Mock.authorized_order 10%Z (Mock.start [Mock.Done])
           (Mock.unit_of ["A-1"] []) [] eq_refl).
  reflexivity.
Defined.

(** A captured order: the refund is sent in the unit's currency, then the
    order is retrieved. *)
Example refundPayment_refunds_capture :
  refundPayment Mock.EOL Z Mock.toFixed Mock.sdk Mock.captured_order 10%Z
    (Mock.start [Mock.Done; Mock.Order Mock.captured_order])
  = (Returns (IsData (Some Mock.captured_order)),
     {| world := [];
        issued :=
          [ refundPayment_call "C-1"
              (Some {| refund_amount :=
                         {| value := "10.00"; currency_code := "USD" |} |});
            getOrder_call "O-1" ] |}).
Proof. vm_compute. reflexivity. Qed.

(** *** The other operations against the scripted client *)

Lemma getPaymentStatus_never_captured_witness :
  AUTHORIZED ∈ [PENDING; REQUIRES_MORE; CANCELED; AUTHORIZED]
  /\ AUTHORIZED <> CAPTURED /\ AUTHORIZED <> ERROR.
Proof.
  apply (getPaymentStatus_never_captured Mock.EOL Mock.sdk
           Mock.captured_order (Mock.start [Mock.Order Mock.captured_order])
           AUTHORIZED {| world := []; issued := [getOrder_call "O-1"] |}).
  reflexivity.
Defined.

Lemma getPaymentStatus_throws_when_unretrieved_witness :
  getPaymentStatus Mock.EOL Mock.sdk Mock.authorized_order (Mock.start [])
  = (Throws (TypeError_undefined "status"),
     {| world := []; issued := [getOrder_call "O-1"] |}).
Proof.
  apply (getPaymentStatus_throws_when_unretrieved Mock.EOL Mock.sdk
           Mock.authorized_order (Mock.start []) Mock.hang_up []).
  reflexivity.
Defined.

(** The order is captured between the two retrievals: the data says
    COMPLETED, the status is the one of the APPROVED order. *)
Lemma authorizePayment_retrieves_twice_witness :
  authorizePayment Mock.EOL Mock.sdk Mock.authorized_order
    (Mock.start [Mock.Order Mock.authorized_order;
                 Mock.Order Mock.captured_order])
  = (Returns (IsData {| auth_data := Some Mock.captured_order;
                        auth_status := REQUIRES_MORE |}),
     {| world := [];
        issued := [getOrder_call "O-1"; getOrder_call "O-1"] |}).
Proof.
  apply (authorizePayment_retrieves_twice Mock.EOL Mock.sdk
           Mock.authorized_order
           (Mock.start [Mock.Order Mock.authorized_order;
                        Mock.Order Mock.captured_order])
           Mock.authorized_order [Mock.Order Mock.captured_order]
           Mock.captured_order []).
  - reflexivity.
  - reflexivity.
Defined.

Lemma authorizePayment_first_retrieval_fails_witness :
  authorizePayment Mock.EOL Mock.sdk Mock.authorized_order
    (Mock.start [Mock.Fail (Error "RESOURCE_NOT_FOUND");
                 Mock.Order Mock.authorized_order])
  = (Returns
       (IsError
          {| error := "An error occurred in authorizePayment";
             code := Some "unknown";
             detail :=
               Some "Cannot read properties of undefined (reading 'status')" |}),
     {| world := [Mock.Order Mock.authorized_order];
        issued := [getOrder_call "O-1"] |}).
Proof.
  apply (authorizePayment_first_retrieval_fails Mock.EOL Mock.sdk
           Mock.authorized_order
           (Mock.start [Mock.Fail (Error "RESOURCE_NOT_FOUND");
                        Mock.Order Mock.authorized_order])
           (Error "RESOURCE_NOT_FOUND") [Mock.Order Mock.authorized_order]).
  reflexivity.
Defined.

Lemma authorizePayment_second_retrieval_fails_witness :
  authorizePayment Mock.EOL Mock.sdk Mock.authorized_order
    (Mock.start [Mock.Order Mock.captured_order])
  = (Returns (IsData {| auth_data := None; auth_status := AUTHORIZED |}),
     {| world := [];
        issued := [getOrder_call "O-1"; getOrder_call "O-1"] |}).
Proof.
  apply (authorizePayment_second_retrieval_fails Mock.EOL Mock.sdk
           Mock.authorized_order (Mock.start [Mock.Order Mock.captured_order])
           Mock.captured_order [] Mock.hang_up []).
  - reflexivity.
  - reflexivity.
Defined.

(** An order already captured is captured again all the same. *)
Lemma capturePayment_captures_first_authorization_witness :
  capturePayment Mock.EOL Mock.sdk Mock.captured_order
    (Mock.start [Mock.Fail (Error "AUTHORIZATION_ALREADY_CAPTURED")])
  = (Returns
       (IsError
          {| error := "an error occurred in capturePayment";
             code := Some "unknown";
             detail := Some "AUTHORIZATION_ALREADY_CAPTURED" |}),
     {| world := []; issued := [captureAuthorizedPayment_call "A-1"] |}).
Proof.
  pose proof
    (capturePayment_captures_first_authorization Mock.EOL Mock.sdk
       Mock.captured_order
       (Mock.start [Mock.Fail (Error "AUTHORIZATION_ALREADY_CAPTURED")])
       (Mock.unit_of ["A-1"] ["C-1"]) [] (mkPaymentRef "A-1") []
       eq_refl eq_refl) as H.
  cbv zeta in H. destruct H as [_ Hrefused].
  exact (Hrefused (Error "AUTHORIZATION_ALREADY_CAPTURED") [] eq_refl).
Defined.

Lemma capturePayment_throws_iff_witness :
  exists e env',
    capturePayment Mock.EOL Mock.sdk Mock.bare_order (Mock.start [Mock.Done])
    = (Throws e, env').
Proof.
  apply (capturePayment_throws_iff Mock.EOL Mock.sdk Mock.bare_order
           (Mock.start [Mock.Done])).
  right. by exists (Mock.unit_of [] []), [].
Defined.

Lemma cancelPayment_throws_when_unretrieved_witness :
  cancelPayment Mock.EOL Mock.sdk Mock.authorized_order (Mock.start [])
  = (Throws (TypeError_undefined "status"),
     {| world := []; issued := [getOrder_call "O-1"] |}).
Proof.
  apply (cancelPayment_throws_when_unretrieved Mock.EOL Mock.sdk
           Mock.authorized_order (Mock.start []) Mock.hang_up []).
  reflexivity.
Defined.

Lemma initiatePayment_creates_one_order_witness :
  initiatePayment Mock.EOL Z Mock.toFixed Mock.options Mock.sdk
    Mock.create_input (Mock.start [Mock.Order Mock.bare_order])
  = (Returns (IsData {| response_data := Mock.bare_order |}),
     {| world := [];
        issued :=
          [ createOrder_call
              {| intent := AUTHORIZE;
                 co_purchase_units :=
                   [ {| cu_custom_id := Some "s1";
                        cu_amount := Mock.usd_25 |} ] |} ] |}).
Proof.
  rewrite (initiatePayment_creates_one_order Mock.EOL Z Mock.toFixed
             Mock.options Mock.sdk Mock.create_input
             (Mock.start [Mock.Order Mock.bare_order]) Mock.context
             Mock.usd_25 eq_refl ltac:(vm_compute; reflexivity)).
  reflexivity.
Defined.

Lemma updatePayment_unformattable_witness :
  updatePayment Mock.EOL Z Mock.toFixed Mock.options Mock.sdk
    Mock.foreign_update (Mock.start [Mock.Done])
  = (Returns
       (IsError
          {| error := "An error occurred in updatePayment";
             code := Some "unknown";
             detail := Some "Currency btc is not supported by Paypal" |}),
     Mock.start [Mock.Done]).
Proof.
  apply (updatePayment_unformattable Mock.EOL Z Mock.toFixed Mock.options
           Mock.sdk Mock.foreign_update (Mock.start [Mock.Done])
           (Error "Currency btc is not supported by Paypal")).
  vm_compute. reflexivity.
Defined.

Lemma updatePayment_both_refused_witness :
  updatePayment Mock.EOL Z Mock.toFixed Mock.options Mock.sdk
    (Mock.update_input (Some Mock.context))
    (Mock.start [Mock.Fail (Error "ORDER_ALREADY_APPROVED");
                 Mock.Fail (Error "RATE_LIMIT_REACHED")])
  = (Returns
       (IsError (buildError Mock.EOL initiate_message
                   (Error "RATE_LIMIT_REACHED"))),
     after
       (Mock.start [Mock.Fail (Error "ORDER_ALREADY_APPROVED");
                    Mock.Fail (Error "RATE_LIMIT_REACHED")])
       [ patchOrder_call "O-1" (amount_patch Mock.usd_25);
         createOrder_call (order_request Mock.options (Some "s1") Mock.usd_25) ]
       []).
Proof.
  apply (updatePayment_both_refused Mock.EOL Z Mock.toFixed Mock.options
           Mock.sdk (Mock.update_input (Some Mock.context))
           (Mock.start [Mock.Fail (Error "ORDER_ALREADY_APPROVED");
                        Mock.Fail (Error "RATE_LIMIT_REACHED")])
           Mock.context Mock.usd_25
           (Error "ORDER_ALREADY_APPROVED")
           [Mock.Fail (Error "RATE_LIMIT_REACHED")]
           (Error "RATE_LIMIT_REACHED") []).
  - reflexivity.
  - vm_compute. reflexivity.
  - reflexivity.
  - reflexivity.
Defined.

Lemma getWebhookActionAndData_not_supported_witness :
  {| action := ACTION_NOT_SUPPORTED; action_data := None |}
  = {| action := ACTION_NOT_SUPPORTED;
       action_data := @None (WebhookActionData nat) |}
  /\ Mock.start [Mock.Done] = Mock.start [Mock.Done].
Proof.
  apply (getWebhookActionAndData_not_supported nat String.length
           Mock.captured_order (Mock.start [Mock.Done])).
  reflexivity.
Defined.

Lemma getWebhookActionAndData_returns_iff_witness :
  exists r env',
    getWebhookActionAndData nat String.length Mock.captured_order
      (Mock.start [Mock.Done])
    = (Returns r, env').
Proof.
  apply (getWebhookActionAndData_returns_iff nat String.length
           Mock.captured_order (Mock.start [Mock.Done])).
  by exists (Mock.unit_of ["A-1"] ["C-1"]), [], (mkPaymentRef "C-1"), [],
    (mkPaymentRef "A-1"), [].
Defined.

Lemma retrieveOrderFromAuth_fetches_last_segment_witness :
  retrieveOrderFromAuth Mock.sdk
    {| links := [Mock.self_link; Mock.up_link] |}
    (Mock.start [Mock.Order Mock.authorized_order])
  = (Returns (Some Mock.authorized_order),
     {| world := []; issued := [getOrder_call "O-1"] |}).
Proof.
  rewrite (retrieveOrderFromAuth_fetches_last_segment Mock.sdk
             {| links := [Mock.self_link; Mock.up_link] |}
             (Mock.start [Mock.Order Mock.authorized_order])
             Mock.up_link "https://api.paypal.com/v2/checkout/orders"
             "O" "-1" eq_refl eq_refl eq_refl).
  reflexivity.
Defined.

Lemma retrieveOrderFromAuth_null_on_empty_segment_witness :
  retrieveOrderFromAuth Mock.sdk {| links := [Mock.slash_link] |}
    (Mock.start [Mock.Order Mock.authorized_order])
  = (Returns None, Mock.start [Mock.Order Mock.authorized_order]).
Proof.
  apply (retrieveOrderFromAuth_null_on_empty_segment Mock.sdk
           {| links := [Mock.slash_link] |}
           (Mock.start [Mock.Order Mock.authorized_order])
           Mock.slash_link "https://api.paypal.com/v2/checkout/orders/"
           eq_refl eq_refl).
  right. by exists "https://api.paypal.com/v2/checkout/orders".
Defined.

Lemma retrieveOrderFromAuth_first_up_link_witness :
  retrieveOrderFromAuth Mock.sdk
    {| links := [Mock.self_link] ++ Mock.up_link :: [Mock.slash_link] |}
    (Mock.start [Mock.Order Mock.authorized_order])
  = retrieveOrderFromAuth Mock.sdk {| links := [Mock.up_link] |}
      (Mock.start [Mock.Order Mock.authorized_order]).
Proof.
  apply (retrieveOrderFromAuth_first_up_link Mock.sdk [Mock.self_link]
           Mock.up_link [Mock.slash_link]
           (Mock.start [Mock.Order Mock.authorized_order])).
  - by repeat constructor.
  - reflexivity.
Defined.

Lemma verifyWebhook_request_webhook_id_witness :
  verifyWebhook_request Mock.webhook_options
    {[ "transmission_id" := VStr "T-1" ]} !! "webhook_id"
  = Some (VStr "WH-2").
Proof.
  apply (verifyWebhook_request_webhook_id Mock.webhook_options
           {[ "transmission_id" := VStr "T-1" ]}).
  by apply lookup_singleton_ne.
Defined.

Lemma verifyWebhook_request_passes_fields_witness :
  verifyWebhook_request Mock.webhook_options
    {[ "transmission_id" := VStr "T-1" ]} !! "transmission_id"
  = ({[ "transmission_id" := VStr "T-1" ]} : gmap string JsVal)
    !! "transmission_id".
Proof.
  apply (verifyWebhook_request_passes_fields Mock.webhook_options
           {[ "transmission_id" := VStr "T-1" ]} "transmission_id").
  discriminate.
Defined.

Lemma validateOptions_accepts_iff_witness :
  validateOptions
    {| clientId := None; clientSecret := None; capture := Some true |}
  = inl (Error "Required option `clientId` is missing in PayPal plugin").
Proof.
  apply (validateOptions_accepts_iff
           {| clientId := None; clientSecret := None; capture := Some true |}).
  reflexivity.
Defined.

Lemma errors_name_their_operation_witness :
  error uncaptured_refund = "An error occurred in refundPayment".
Proof.
  destruct (errors_name_their_operation Mock.EOL Z Mock.toFixed Mock.options
              Mock.sdk) as (_ & _ & _ & Hrefund & _).
  apply (Hrefund Mock.authorized_order 10%Z (Mock.start [Mock.Done])
           uncaptured_refund (Mock.start [Mock.Done])).
  reflexivity.
Defined.

(** ** The formatter, for any rendering of amounts *)

Lemma upper_ascii_idempotent c : upper_ascii (upper_ascii c) = upper_ascii c.
Proof. by destruct c as [[] [] [] [] [] [] [] []]. Qed.

Lemma toUpperCase_idempotent s : toUpperCase (toUpperCase s) = toUpperCase s.
Proof.
  induction s as [| c s IH]; [reflexivity |].
  cbn [toUpperCase]. by rewrite IH, upper_ascii_idempotent.
Qed.

(** The table, entry by entry: a currency it lists carries no option at
    all, or [decimal: false] when it is one of the zero-decimal codes. *)
Lemma PAYPAL_CURRENCY_CODES_options k opts :
  PAYPAL_CURRENCY_CODES !! k = Some opts ->
  opts = (if bool_decide (k ∈ zero_decimal_codes) then zero_decimal
          else no_options).
Proof.
  intros H. apply elem_of_list_to_map_2 in H.
  repeat (apply elem_of_cons in H as [H | H];
          [injection H as -> ->; vm_compute; reflexivity |]).
  by apply elem_of_nil in H.
Qed.

Section FormatterProperties.
Variable BigNumberInput : Type.
Variable toFixed : BigNumberInput -> nat -> JsError + string.

(** The number of decimals [convertAmount] asks for. *)
Lemma convertAmount_run amount currency opts :
  PAYPAL_CURRENCY_CODES !! toUpperCase currency = Some opts ->
  convertAmount BigNumberInput toFixed amount currency
  = match toFixed amount
            (if bool_decide (toUpperCase currency ∈ zero_decimal_codes)
             then 0 else 2) with
    | inl e => inl e
    | inr v =>
        if (32 <? String.length v)%nat
        then inl (Error ("Amount string exceeds 32 character limit: " +:+ v))
        else inr {| value := v; currency_code := toUpperCase currency |}
    end.
Proof.
  intros H. unfold convertAmount. rewrite H.
  rewrite (PAYPAL_CURRENCY_CODES_options _ _ H).
  by destruct (bool_decide (toUpperCase currency ∈ zero_decimal_codes)).
Qed.

(** X1: whatever [convertAmount] returns is fit for the remote API: the
    currency code is the upper-cased input and a key of the table, and the
    value is at most 32 characters long. *)
Theorem convertAmount_result_well_formed amount currency m :
  convertAmount BigNumberInput toFixed amount currency = inr m ->
  currency_code m = toUpperCase currency
  /\ is_Some (PAYPAL_CURRENCY_CODES !! currency_code m)
  /\ (String.length (value m) <= 32)%nat.
Proof.
  intros H.
  destruct (PAYPAL_CURRENCY_CODES !! toUpperCase currency) as [opts |] eqn:Ht.
  - rewrite (convertAmount_run _ _ _ Ht) in H.
    destruct (toFixed _ _) as [e | v]; [discriminate |].
    destruct (32 <? String.length v)%nat eqn:Hlen; [discriminate |].
    injection H as <-. cbn [currency_code value]. apply Nat.ltb_ge in Hlen.
    rewrite Ht. by eauto.
  - unfold convertAmount in H. by rewrite Ht in H.
Qed.


(** X3: the currency code is read without regard to case: two spellings
    with the same upper-case form give the same formatted amount, or both
    fail. *)
Theorem convertAmount_case_insensitive amount currency1 currency2 m :
  toUpperCase currency1 = toUpperCase currency2 ->
  convertAmount BigNumberInput toFixed amount currency1 = inr m
  <-> convertAmount BigNumberInput toFixed amount currency2 = inr m.
Proof.
  intros Hup. unfold convertAmount. rewrite Hup.
  by destruct (PAYPAL_CURRENCY_CODES !! toUpperCase currency2).
Qed.

(** X4: [convertAmount] fails in three ways only: the currency is not in
    the table (the message quotes the code as the caller spelled it, and the
    amount is not looked at), the rendering of the amount fails (its error is
    passed on), or the rendered value is longer than 32 characters (the
    message quotes it). *)
Theorem convertAmount_failures amount currency e :
  convertAmount BigNumberInput toFixed amount currency = inl e ->
  let precision :=
    if bool_decide (toUpperCase currency ∈ zero_decimal_codes) then 0 else 2 in
  (PAYPAL_CURRENCY_CODES !! toUpperCase currency = None
   /\ e = Error ("Currency " +:+ currency +:+ " is not supported by Paypal"))
  \/ (is_Some (PAYPAL_CURRENCY_CODES !! toUpperCase currency)
      /\ toFixed amount precision = inl e)
  \/ (is_Some (PAYPAL_CURRENCY_CODES !! toUpperCase currency)
      /\ exists v,
          toFixed amount precision = inr v
          /\ (32 < String.length v)%nat
          /\ e = Error ("Amount string exceeds 32 character limit: " +:+ v)).
Proof.
  intros H precision.
  destruct (PAYPAL_CURRENCY_CODES !! toUpperCase currency) as [opts |] eqn:Ht.
  - rewrite (convertAmount_run _ _ _ Ht) in H. fold precision in H.
    destruct (toFixed amount precision) as [e' | v] eqn:Hv.
    + injection H as ->. right; left. by eauto.
    + destruct (32 <? String.length v)%nat eqn:Hlen; [| discriminate].
      injection H as <-. apply Nat.ltb_lt in Hlen.
      right; right. split; [by eauto |]. by exists v.
  - unfold convertAmount in H. rewrite Ht in H. injection H as <-.
    by left.
Qed.

End FormatterProperties.

Lemma convertAmount_result_well_formed_witness :
  currency_code {| value := "10.00"; currency_code := "USD" |} = toUpperCase "usd"
  /\ is_Some (PAYPAL_CURRENCY_CODES
               !! currency_code {| value := "10.00"; currency_code := "USD" |})
  /\ (String.length (value {| value := "10.00"; currency_code := "USD" |})
      <= 32)%nat.
Proof.
  apply (convertAmount_result_well_formed Z Mock.toFixed 10%Z "usd").
  vm_compute. reflexivity.
Defined.


Lemma convertAmount_case_insensitive_witness :
  convertAmount Z Mock.toFixed 10%Z "uSd"
  = inr {| value := "10.00"; currency_code := "USD" |}
  <-> convertAmount Z Mock.toFixed 10%Z "USD"
      = inr {| value := "10.00"; currency_code := "USD" |}.
Proof.
  apply (convertAmount_case_insensitive Z Mock.toFixed 10%Z "uSd" "USD").
  reflexivity.
Defined.

Lemma convertAmount_failures_witness :
  (PAYPAL_CURRENCY_CODES !! toUpperCase "btc" = None
   /\ Error "Currency btc is not supported by Paypal"
      = Error ("Currency " +:+ "btc" +:+ " is not supported by Paypal"))
  \/ (is_Some (PAYPAL_CURRENCY_CODES !! toUpperCase "btc")
      /\ Mock.toFixed 10%Z
           (if bool_decide (toUpperCase "btc" ∈ zero_decimal_codes)
            then 0 else 2)
         = inl (Error "Currency btc is not supported by Paypal"))
  \/ (is_Some (PAYPAL_CURRENCY_CODES !! toUpperCase "btc")
      /\ exists v,
          Mock.toFixed 10%Z
            (if bool_decide (toUpperCase "btc" ∈ zero_decimal_codes)
             then 0 else 2)
          = inr v
          /\ (32 < String.length v)%nat
          /\ Error "Currency btc is not supported by Paypal"
             = Error ("Amount string exceeds 32 character limit: " +:+ v)).
Proof.
  apply (convertAmount_failures Z Mock.toFixed 10%Z "btc"
           (Error "Currency btc is not supported by Paypal")).
  vm_compute. reflexivity.
Defined.


(** ** The formatter on concrete amounts *)
Example upper_usd : toUpperCase "usd" = "USD".
Proof. reflexivity. Qed.

Example usd_supported : PAYPAL_CURRENCY_CODES !! "USD" = Some no_options.
Proof. vm_compute. reflexivity. Qed.

Example xyz_unsupported : PAYPAL_CURRENCY_CODES !! "XYZ" = None.
Proof. vm_compute. reflexivity. Qed.

Example mock_toFixed_2 : Mock.toFixed 10%Z 2 = inr "10.00".
Proof. vm_compute. reflexivity. Qed.

Example convert_usd :
  convertAmount Z Mock.toFixed 10%Z "usd"
  = inr {| value := "10.00"; currency_code := "USD" |}.
Proof. vm_compute. reflexivity. Qed.

Example convert_jpy :
  convertAmount Z Mock.toFixed 10%Z "JPY"
  = inr {| value := "10"; currency_code := "JPY" |}.
Proof. vm_compute. reflexivity. Qed.

Example convert_xyz :
  convertAmount Z Mock.toFixed 10%Z "XYZ"
  = inl (Error "Currency XYZ is not supported by Paypal").
Proof. vm_compute. reflexivity. Qed.

Example split_href :
  split "/" "https://api.paypal.com/v2/checkout/orders/5O1"
  = ["https:"; ""; "api.paypal.com"; "v2"; "checkout"; "orders"; "5O1"].
Proof. reflexivity. Qed.

